(** * The EC2 instance-metadata query scripts, embedded in Rocq

    The repository holds two scripts that walk the metadata service of an
    instance: [aws_metadata_query.py] (module [Query] below) and [code.py]
    (module [Code]).  Both discover the tree by fetching a path, reading
    the answer as a listing or as a value, and recursing.

    Python strings are modelled by [string]; a character stands for a
    code point below 256.  A Python [dict] is an association list in
    insertion order whose keys are pairwise distinct; [None] has a
    constructor of its own.

    The recursion of the walkers follows the namespace of the service,
    so it is bounded here by a number of nested calls, [fuel]: a walk
    that would need more gives no result.  The recursion limit of the
    interpreter is not part of the model, and neither are the printed
    messages and the token handshake. *)

From Stdlib Require Import String Ascii List Bool Arith Lia.
From Stdlib Require Mergesort Permutation Sorted Orders.
Import ListNotations.
Open Scope list_scope.
Open Scope string_scope.

(** ** Python string operations used by the scripts *)

Module PyStr.

Definition LF : ascii := "010"%char.
Definition slash : ascii := "/"%char.

(** One-character strings, for building test data. *)
Definition nl : string := String LF EmptyString.

(** Truth value of a string: [if s] in Python. *)
Definition truthy (s : string) : bool :=
  match s with
  | EmptyString => false
  | String _ _ => true
  end.

(** [c in s] for a single character [c]. *)
Fixpoint contains (c : ascii) (s : string) : bool :=
  match s with
  | EmptyString => false
  | String a r => Ascii.eqb a c || contains c r
  end.

(** [s.endswith(c)] for a single character [c]. *)
Fixpoint endswith (c : ascii) (s : string) : bool :=
  match s with
  | EmptyString => false
  | String a EmptyString => Ascii.eqb a c
  | String _ r => endswith c r
  end.

(** [str.isspace] on code points below 256: TAB..CR, FS..US, space,
    NEL and the no-break space. *)
Definition isspace (a : ascii) : bool :=
  let n := nat_of_ascii a in
  (Nat.leb 9 n && Nat.leb n 13) || (Nat.leb 28 n && Nat.leb n 32)
  || Nat.eqb n 133 || Nat.eqb n 160.

(** Drop the longest suffix whose characters satisfy [p]. *)
Fixpoint rstrip_with (p : ascii -> bool) (s : string) : string :=
  match s with
  | EmptyString => EmptyString
  | String a r =>
      match rstrip_with p r with
      | EmptyString => if p a then EmptyString else String a EmptyString
      | r' => String a r'
      end
  end.

(** Drop the longest prefix whose characters satisfy [p]. *)
Fixpoint lstrip_with (p : ascii -> bool) (s : string) : string :=
  match s with
  | EmptyString => EmptyString
  | String a r => if p a then lstrip_with p r else s
  end.

(** [s.strip()] *)
Definition strip (s : string) : string :=
  rstrip_with isspace (lstrip_with isspace s).

(** [s.rstrip(c)] for a single character [c]. *)
Definition rstrip (c : ascii) (s : string) : string :=
  rstrip_with (Ascii.eqb c) s.

(** [s.split(c)]: never empty, [''] for the empty string. *)
Fixpoint split (c : ascii) (s : string) : list string :=
  match s with
  | EmptyString => [EmptyString]
  | String a r =>
      if Ascii.eqb a c then EmptyString :: split c r
      else match split c r with
           | [] => [String a EmptyString]
           | h :: t => String a h :: t
           end
  end.

(** [s[:-1]] *)
Fixpoint drop_last (s : string) : string :=
  match s with
  | EmptyString => EmptyString
  | String _ EmptyString => EmptyString
  | String a r => String a (drop_last r)
  end.

(** [s.replace(a, b)] for single characters. *)
Fixpoint replace (a b : ascii) (s : string) : string :=
  match s with
  | EmptyString => EmptyString
  | String c r => String (if Ascii.eqb c a then b else c) (replace a b r)
  end.

End PyStr.

(** ** Values and dictionaries *)

(** What the walkers build: [None], a string, or a dictionary. *)
#[warning="-register-all"]
Inductive pyval : Type :=
| VNone : pyval
| VStr : string -> pyval
| VDict : list (string * pyval) -> pyval.

Definition dict : Type := list (string * pyval).

Definition is_dict (v : pyval) : bool :=
  match v with
  | VDict _ => true
  | _ => false
  end.

(** [d[k] = v]: an existing key keeps its place and takes the new value,
    a new key goes last. *)
Fixpoint dict_set (k : string) (v : pyval) (d : dict) : dict :=
  match d with
  | [] => [(k, v)]
  | (k', v') :: r =>
      if String.eqb k' k then (k', v) :: r else (k', v') :: dict_set k v r
  end.

(** [d.get(k)] *)
Fixpoint dict_get (k : string) (d : dict) : option pyval :=
  match d with
  | [] => None
  | (k', v') :: r => if String.eqb k' k then Some v' else dict_get k r
  end.

Definition keys (d : dict) : list string := map fst d.

(** ** The metadata service

    What a GET of [base_url + path] gives: the body of a 2xx answer, or
    the [requests.RequestException] raised (time-out, refused connection,
    non-2xx status), with its message. *)
Inductive response : Type :=
| Body (text : string)
| RequestException (msg : string).

Definition service : Type := string -> response.

(** ** aws_metadata_query.py *)

Module Query.
Import PyStr.

Section Client.
Variable svc : service.

(** [_make_request]: the body, or [None] after printing the error. *)
Definition _make_request (endpoint : string) : option string :=
  match svc endpoint with
  | Body text => Some text
  | RequestException _ => None
  end.

(** The test of lines 75 and 83:
    [content.endswith('/') or '\n' in content]. *)
Definition is_listing (content : string) : bool :=
  endswith slash content || contains LF content.

(** [[line.rstrip('/') for line in content.strip().split('\n') if line]] *)
Definition _parse_directory (content : string) : list string :=
  map (rstrip slash) (filter truthy (split LF (strip content))).

(** [f"{endpoint}{item}/" if endpoint else f"{item}/"] *)
Definition item_endpoint_of (endpoint item : string) : string :=
  if truthy endpoint then endpoint ++ item ++ "/" else item ++ "/".

(** [item_content and (item_content.endswith('/') or '\n' in item_content)] *)
Definition is_subdirectory (item_content : option string) : bool :=
  match item_content with
  | None => false
  | Some c => truthy c && is_listing c
  end.

Definition of_optional (o : option string) : pyval :=
  match o with
  | None => VNone
  | Some s => VStr s
  end.

(** The value stored for one item of the loop of lines 79-88; [rec]
    is the recursive call. *)
Definition item_value (rec : string -> option pyval)
    (endpoint item : string) : option pyval :=
  let item_endpoint := item_endpoint_of endpoint item in
  let item_content := _make_request (rstrip slash item_endpoint) in
  if is_subdirectory item_content then rec item_endpoint
  else Some (of_optional item_content).

(** The loop of lines 79-88 over the remaining items. *)
Fixpoint walk_items (rec : string -> option pyval) (endpoint : string)
    (items : list string) (result : dict) : option dict :=
  match items with
  | [] => Some result
  | item :: rest =>
      match item_value rec endpoint item with
      | None => None
      | Some v => walk_items rec endpoint rest (dict_set item v result)
      end
  end.

(** [_get_nested_metadata]; [fuel] bounds the depth of the recursion,
    [None] says the bound was reached. *)
Fixpoint _get_nested_metadata (fuel : nat) (endpoint : string)
    : option pyval :=
  match fuel with
  | 0 => None
  | S fuel' =>
      match _make_request endpoint with
      | None => Some (VDict [])
      | Some content =>
          if is_listing content then
            option_map VDict
              (walk_items (_get_nested_metadata fuel') endpoint
                 (_parse_directory content) [])
          else Some (VStr content)
      end
  end.

(** [get_all_metadata]: the walk from the root.  Over a [service] every
    request answers or fails with a [RequestException], so the walk
    raises nothing for the handler of lines 100-102 to catch; the
    handler is part of [QueryExn.get_all_metadata] below, which also
    covers the exceptions that are no [RequestException]. *)
Definition get_all_metadata (fuel : nat) : option pyval :=
  _get_nested_metadata fuel "".

(** [key.replace('.', '/').replace('_', '-')] *)
Definition key_path_of (key : string) : string :=
  replace "_" "-" (replace "." "/" key).

(** [get_metadata_key] *)
Definition get_metadata_key (key : string) : option string :=
  _make_request (key_path_of key).

End Client.

(** [f"{prefix}/{key}" if prefix else key] *)
Definition full_key_of (prefix key : string) : string :=
  if truthy prefix then prefix ++ "/" ++ key else key.

(** The body of the loop of [collect_keys] for a value stored under
    [full_key]: the keys below a dictionary, [full_key] itself for
    anything else. *)
Fixpoint collect_value (v : pyval) (full_key : string) : list string :=
  match v with
  | VDict d =>
      (fix collect (data : dict) : list string :=
         match data with
         | [] => []
         | (key, value) :: rest =>
             (collect_value value (full_key_of full_key key) ++ collect rest)%list
         end) d
  | _ => [full_key]
  end.

(** [collect_keys(data, prefix)] *)
Fixpoint collect_keys (data : dict) (prefix : string) : list string :=
  match data with
  | [] => []
  | (key, value) :: rest =>
      (collect_value value (full_key_of prefix key)
         ++ collect_keys rest prefix)%list
  end.

(** What [list_available_keys] gives: the keys, or the [AttributeError]
    of calling [.items()] on a value that is no dictionary. *)
Inductive listing_result : Type :=
| Keys (ks : list string)
| AttributeError.

Definition list_available_keys (svc : service) (fuel : nat)
    : option listing_result :=
  match get_all_metadata svc fuel with
  | None => None
  | Some (VDict d) => Some (Keys (collect_keys d ""))
  | Some _ => Some AttributeError
  end.

End Query.

(** ** code.py *)

(** How a call that may raise ends. *)
Inductive outcome (A : Type) : Type :=
| Returned (a : A)
| Raised (msg : string).

Arguments Returned {A} a.
Arguments Raised {A} msg.

Module Code.
Import PyStr.

Section Client.
Variable svc : service.

(** [_make_request]: the body, or
    [Exception(f"Failed to retrieve metadata from {path}: {e}")]. *)
Definition _make_request (path : string) : outcome string :=
  match svc path with
  | Body text => Returned text
  | RequestException e =>
      Raised ("Failed to retrieve metadata from " ++ path ++ ": " ++ e)
  end.

(** [f"{path}{line}" if path else line] *)
Definition item_path_of (path line : string) : string :=
  if truthy path then path ++ line else line.

(** The key a listing line is stored under: [line[:-1]] for a
    directory line, the line itself otherwise. *)
Definition key_of (line : string) : string :=
  if endswith slash line then drop_last line else line.

(** The value stored for one non-empty line (lines 62-74); [rec] is
    the recursive call. *)
Definition line_value (rec : string -> option pyval)
    (path line : string) : option pyval :=
  let item_path := item_path_of path line in
  if endswith slash line then rec item_path
  else match _make_request item_path with
       | Returned value => Some (VStr value)
       | Raised e => Some (VStr ("Error: " ++ e))
       end.

(** The loop of lines 58-74 over the remaining lines. *)
Fixpoint walk_lines (rec : string -> option pyval) (path : string)
    (lines : list string) (result : dict) : option dict :=
  match lines with
  | [] => Some result
  | line :: rest =>
      if truthy line then
        match line_value rec path line with
        | None => None
        | Some v => walk_lines rec path rest (dict_set (key_of line) v result)
        end
      else walk_lines rec path rest result
  end.

(** [_get_metadata_recursive]; [fuel] bounds the depth of the
    recursion, [None] says the bound was reached. *)
Fixpoint _get_metadata_recursive (fuel : nat) (path : string)
    : option pyval :=
  match fuel with
  | 0 => None
  | S fuel' =>
      match _make_request path with
      | Raised e => Some (VStr ("Error retrieving " ++ path ++ ": " ++ e))
      | Returned content =>
          option_map VDict
            (walk_lines (_get_metadata_recursive fuel') path
               (split LF (strip content)) [])
      end
  end.

(** [get_all_metadata], the token handshake left out. *)
Definition get_all_metadata (fuel : nat) : option pyval :=
  _get_metadata_recursive fuel "".

(** [get_specific_key] *)
Definition get_specific_key (key_path : string) : dict :=
  match _make_request key_path with
  | Returned value => [(key_path, VStr value)]
  | Raised e =>
      [("error", VStr ("Could not retrieve key '" ++ key_path ++ "': " ++ e))]
  end.

End Client.
End Code.

(** ** The walkers over a service that has a state

    The same two walkers with the state of the outside world threaded
    through every request: a GET reads the world and may change it. *)

Definition world_service (W : Type) : Type := string -> W -> response * W.

Module QueryIO.
Import PyStr.

Section Client.
Variable W : Type.
Variable get : world_service W.

Definition _make_request (endpoint : string) (w : W) : option string * W :=
  match get endpoint w with
  | (Body text, w') => (Some text, w')
  | (RequestException _, w') => (None, w')
  end.

Definition item_value (rec : string -> W -> option (pyval * W))
    (endpoint item : string) (w : W) : option (pyval * W) :=
  let item_endpoint := Query.item_endpoint_of endpoint item in
  let (item_content, w') := _make_request (rstrip slash item_endpoint) w in
  if Query.is_subdirectory item_content then rec item_endpoint w'
  else Some (Query.of_optional item_content, w').

Fixpoint walk_items (rec : string -> W -> option (pyval * W))
    (endpoint : string) (items : list string) (result : dict) (w : W)
    : option (dict * W) :=
  match items with
  | [] => Some (result, w)
  | item :: rest =>
      match item_value rec endpoint item w with
      | None => None
      | Some (v, w') =>
          walk_items rec endpoint rest (dict_set item v result) w'
      end
  end.

Fixpoint _get_nested_metadata (fuel : nat) (endpoint : string) (w : W)
    : option (pyval * W) :=
  match fuel with
  | 0 => None
  | S fuel' =>
      match _make_request endpoint w with
      | (None, w') => Some (VDict [], w')
      | (Some content, w') =>
          if Query.is_listing content then
            match walk_items (_get_nested_metadata fuel') endpoint
                    (Query._parse_directory content) [] w' with
            | None => None
            | Some (d, w'') => Some (VDict d, w'')
            end
          else Some (VStr content, w')
      end
  end.

End Client.
End QueryIO.

Module CodeIO.
Import PyStr.

Section Client.
Variable W : Type.
Variable get : world_service W.

Definition _make_request (path : string) (w : W) : outcome string * W :=
  match get path w with
  | (Body text, w') => (Returned text, w')
  | (RequestException e, w') =>
      (Raised ("Failed to retrieve metadata from " ++ path ++ ": " ++ e), w')
  end.

Definition line_value (rec : string -> W -> option (pyval * W))
    (path line : string) (w : W) : option (pyval * W) :=
  let item_path := Code.item_path_of path line in
  if endswith slash line then rec item_path w
  else match _make_request item_path w with
       | (Returned value, w') => Some (VStr value, w')
       | (Raised e, w') => Some (VStr ("Error: " ++ e), w')
       end.

Fixpoint walk_lines (rec : string -> W -> option (pyval * W))
    (path : string) (lines : list string) (result : dict) (w : W)
    : option (dict * W) :=
  match lines with
  | [] => Some (result, w)
  | line :: rest =>
      if truthy line then
        match line_value rec path line w with
        | None => None
        | Some (v, w') =>
            walk_lines rec path rest (dict_set (Code.key_of line) v result) w'
        end
      else walk_lines rec path rest result w
  end.

Fixpoint _get_metadata_recursive (fuel : nat) (path : string) (w : W)
    : option (pyval * W) :=
  match fuel with
  | 0 => None
  | S fuel' =>
      match _make_request path w with
      | (Raised e, w') =>
          Some (VStr ("Error retrieving " ++ path ++ ": " ++ e), w')
      | (Returned content, w') =>
          match walk_lines (_get_metadata_recursive fuel') path
                  (split LF (strip content)) [] w' with
          | None => None
          | Some (d, w'') => Some (VDict d, w'')
          end
      end
  end.

End Client.
End CodeIO.

(** ** Notions used in the statements *)

(** The character-wise reading of the two [replace] calls of
    [get_metadata_key]. *)
Definition norm_char (c : ascii) : ascii :=
  if Ascii.eqb c "." then "/"%char
  else if Ascii.eqb c "_" then "-"%char else c.

Fixpoint string_map (f : ascii -> ascii) (s : string) : string :=
  match s with
  | EmptyString => EmptyString
  | String c r => String (f c) (string_map f r)
  end.

(** [s] occurs in [t] as a substring. *)
Definition occurs_in (s t : string) : Prop :=
  exists pre post, t = pre ++ s ++ post.

(** ** Services used as examples *)

(** The root listing of the scenario of the specification. *)
Definition root_listing : string :=
  "instance-id" ++ PyStr.nl ++ "ami-id" ++ PyStr.nl ++ "placement/" ++ PyStr.nl.

(** The scenario of the specification: a root listing with two values
    and one directory. *)
Definition svc_scenario : service := fun p =>
  if String.eqb p "" then Body root_listing
  else if String.eqb p "instance-id" then Body "i-0123"
  else if String.eqb p "ami-id" then Body "ami-0456"
  else if String.eqb p "placement" then Body ("availability-zone" ++ PyStr.nl)
  else if String.eqb p "placement/" then Body ("availability-zone" ++ PyStr.nl)
  else if String.eqb p "placement/availability-zone" then Body "us-east-1a"
  else RequestException "404 Client Error: Not Found".

(** The same namespace with a time-out on [ami-id]. *)
Definition svc_timeout : service := fun p =>
  if String.eqb p "ami-id" then RequestException "Read timed out."
  else svc_scenario p.

(** A service whose directory entry [placement/] answers with a single
    line that is no listing. *)
Definition svc_leaf_dir : service := fun p =>
  if String.eqb p "placement/" then Body "us-east-1a"
  else RequestException "404 Client Error: Not Found".

(** The normalisation of a lookup key in the words of the specification:
    every ['.'] and every ['_'] becomes the separator ['/']. *)
Definition spec_normalize (key : string) : string :=
  PyStr.replace "_" "/" (PyStr.replace "." "/" key).

(** A service that answers every path with an empty body. *)
Definition svc_empty : service := fun _ => Body "".

(** The text [code.py] stores when the request for the listing line
    [line] under [path] fails with message [e]: the inner handler of
    lines 73-74 for a value line, the outer handler of lines 78-79 of
    the recursive call for a directory line. *)
Definition error_text (path line e : string) : string :=
  let item_path := Code.item_path_of path line in
  if PyStr.endswith PyStr.slash line then
    "Error retrieving " ++ item_path
    ++ ": Failed to retrieve metadata from " ++ item_path ++ ": " ++ e
  else "Error: Failed to retrieve metadata from " ++ item_path ++ ": " ++ e.




(** ** The enumerated keys and the tree *)

(** [collect_keys] with each key paired with the value it stands for. *)
Fixpoint collect_value_items (v : pyval) (full_key : string)
    : list (string * pyval) :=
  match v with
  | VDict d =>
      (fix collect (data : dict) : list (string * pyval) :=
         match data with
         | [] => []
         | (key, value) :: rest =>
             (collect_value_items value (Query.full_key_of full_key key)
                ++ collect rest)%list
         end) d
  | _ => [(full_key, v)]
  end.

Fixpoint collect_items (data : dict) (prefix : string)
    : list (string * pyval) :=
  match data with
  | [] => []
  | (key, value) :: rest =>
      (collect_value_items value (Query.full_key_of prefix key)
         ++ collect_items rest prefix)%list
  end.

(** [node_at d ks v]: following the keys [ks] from the dictionary [d]
    leads to the value [v]. *)
Inductive node_at : dict -> list string -> pyval -> Prop :=
| node_here (d : dict) (k : string) (v : pyval) :
    In (k, v) d -> node_at d [k] v
| node_below (d d' : dict) (k : string) (ks : list string) (v : pyval) :
    In (k, VDict d') d -> node_at d' ks v -> node_at d (k :: ks) v.

(** The key [collect_keys] builds along the keys [ks] below [prefix]. *)
Definition path_of (prefix : string) (ks : list string) : string :=
  fold_left Query.full_key_of ks prefix.

(** Induction on values that reaches the values inside a dictionary. *)
Section PyvalInduction.
Variable P : pyval -> Prop.
Hypothesis HNone : P VNone.
Hypothesis HStr : forall s, P (VStr s).
Hypothesis HDict : forall d, Forall (fun kv => P (snd kv)) d -> P (VDict d).

Fixpoint pyval_nested_ind (v : pyval) : P v :=
  match v with
  | VNone => HNone
  | VStr s => HStr s
  | VDict d =>
      HDict d
        ((fix all (l : dict) : Forall (fun kv => P (snd kv)) l :=
            match l with
            | [] => Forall_nil _
            | (k, v') :: r =>
                Forall_cons (k, v') (pyval_nested_ind v') (all r)
            end) d)
  end.
End PyvalInduction.


(** A root listing with a name that holds an underscore. *)
Definition svc_underscore : service := fun p =>
  if String.eqb p "" then Body ("user_data" ++ PyStr.nl)
  else if String.eqb p "user_data" then Body "#!/bin/sh"
  else RequestException "404 Client Error: Not Found".

(** A world that counts the requests made to a service whose answers
    never change. *)
Definition counting (svc : service) : world_service nat :=
  fun p n => (svc p, S n).

(** A service that answers every path with a listing of one directory. *)
Definition svc_loop : service := fun _ => Body "a/".

(** The depth of the namespace of [svc_scenario] below a path. *)
Definition scenario_depth (p : string) : nat :=
  if String.eqb p "" then 1 else 0.

(** ** The shape of the namespace

    [query_descends svc p c]: the walker of [aws_metadata_query.py], at
    the path [p], makes its recursive call on [c]. *)
Definition query_descends (svc : service) (p c : string) : Prop :=
  exists content item,
    svc p = Body content
    /\ Query.is_listing content = true
    /\ In item (Query._parse_directory content)
    /\ Query.is_subdirectory
         (Query._make_request svc
            (PyStr.rstrip PyStr.slash (Query.item_endpoint_of p item))) = true
    /\ c = Query.item_endpoint_of p item.

(** [code_descends svc p c]: the walker of [code.py], at the path [p],
    makes its recursive call on [c]. *)
Definition code_descends (svc : service) (p c : string) : Prop :=
  exists content line,
    svc p = Body content
    /\ In line (PyStr.split PyStr.LF (PyStr.strip content))
    /\ PyStr.truthy line = true
    /\ PyStr.endswith PyStr.slash line = true
    /\ c = Code.item_path_of p line.

(** The namespace is finite and free of cycles along [descends]: every
    path has a depth, and each step down lowers it. *)
Definition depth_bounded (descends : string -> string -> Prop)
    (depth : string -> nat) : Prop :=
  forall p c, descends p c -> depth c < depth p.

(** ** Notions used for the further properties *)

(** A key the walker of [aws_metadata_query.py] can store: no newline
    in it and no separator at its end. *)
Definition query_key_ok (k : string) : Prop :=
  PyStr.contains PyStr.LF k = false /\ PyStr.endswith PyStr.slash k = false.

(** The elements of a list in the order of their first occurrence. *)
Fixpoint first_occurrences (l : list string) : list string :=
  match l with
  | [] => []
  | x :: r => x :: filter (fun y => negb (String.eqb x y)) (first_occurrences r)
  end.

(** The elements of [l] that are not in [seen]. *)
Definition unseen (seen l : list string) : list string :=
  filter (fun y => negb (existsb (String.eqb y) seen)) l.

(** A directory that is listed under its name and fails under its name
    followed by the separator. *)
Definition svc_flaky_dir : service := fun p =>
  if String.eqb p "" then Body ("placement/" ++ PyStr.nl)
  else if String.eqb p "placement" then Body ("availability-zone" ++ PyStr.nl)
  else RequestException "Read timed out.".




(** A namespace that both scripts read alike, below the directory paths
    [dir]: every non-empty line of a directory's listing is answered; a
    line that ends with ['/'] is a non-empty name followed by one ['/'],
    and both the name and the line are answered with a listing (the
    name with a non-empty one); a line that does not end with ['/'] is
    answered with a value. *)
Definition tidy (svc : service) (dir : string -> Prop) : Prop :=
  forall p content line,
    dir p ->
    svc p = Body content ->
    In line (filter PyStr.truthy (PyStr.split PyStr.LF (PyStr.strip content))) ->
    if PyStr.endswith PyStr.slash line then
      exists name c c',
        line = name ++ "/" /\ name <> ""
        /\ PyStr.endswith PyStr.slash name = false
        /\ svc (p ++ name) = Body c
        /\ PyStr.truthy c = true /\ Query.is_listing c = true
        /\ svc (p ++ line) = Body c' /\ Query.is_listing c' = true
        /\ dir (p ++ line)
    else
      exists c, svc (p ++ line) = Body c
        /\ Query.is_subdirectory (Some c) = false.

(** The directory paths of the scenario. *)
Definition scenario_dir (p : string) : Prop := p = "" \/ p = "placement/".

(** ** The command lines

    [sorted] on strings: Python orders strings by code point, which is
    the order of [String.leb]; the sorted list of a list of strings is
    the same for every sorting algorithm. *)
Module StringOrder <: Orders.TotalLeBool.
Definition t : Type := string.
Definition leb : string -> string -> bool := String.leb.
Theorem leb_total : forall x y : string, leb x y = true \/ leb y x = true.
Proof. exact String.leb_total. Qed.
End StringOrder.

Module StringSort := Mergesort.Sort StringOrder.

(** Truth value of a value: [if v] in Python. *)
Definition py_truthy (v : pyval) : bool :=
  match v with
  | VNone => false
  | VStr s => PyStr.truthy s
  | VDict [] => false
  | VDict (_ :: _) => true
  end.

(** [main] of [aws_metadata_query.py].  The result is the lines [main]
    itself prints and the exit status; the warnings the client prints
    are left out. *)
Module QueryCli.

(** The parsed arguments: [--list], [--key], [--format raw], [--pretty]. *)
Record args : Type := {
  list_flag : bool;
  key : option string;
  raw : bool;
  pretty : bool
}.

Section Main.
Variable svc : service.

(** [json.dumps(v)], or [json.dumps(v, indent=2)] when its first
    argument is [true]. *)
Variable json_dumps : bool -> pyval -> string.

(** The branch of [--list]. *)
Definition list_mode (fuel : nat) : option (list string * nat) :=
  match Query.list_available_keys svc fuel with
  | None => None
  | Some Query.AttributeError =>
      Some (["Unexpected error: 'str' object has no attribute 'items'"], 1)
  | Some (Query.Keys []) =>
      Some (["No metadata keys found or unable to connect to metadata service"], 1)
  | Some (Query.Keys keys) =>
      Some ("Available metadata keys:"
              :: map (fun key => "  " ++ key) (StringSort.sort keys), 0)
  end.

(** The branch of [--key]. *)
Definition key_mode (a : args) (k : string) : list string * nat :=
  match Query.get_metadata_key svc k with
  | Some value =>
      if raw a then ([value], 0)
      else ([json_dumps (pretty a) (VDict [(k, VStr value)])], 0)
  | None => (["Key '" ++ k ++ "' not found or inaccessible"], 1)
  end.

(** The branch without [--list] and [--key]. *)
Definition all_mode (a : args) (fuel : nat) : option (list string * nat) :=
  match Query.get_all_metadata svc fuel with
  | None => None
  | Some metadata =>
      if py_truthy metadata then Some ([json_dumps (pretty a) metadata], 0)
      else Some (["No metadata found or unable to connect to metadata service"], 1)
  end.

Definition main (a : args) (fuel : nat) : option (list string * nat) :=
  if list_flag a then list_mode fuel
  else match key a with
       | Some k => if PyStr.truthy k then Some (key_mode a k) else all_mode a fuel
       | None => all_mode a fuel
       end.

End Main.
End QueryCli.

(** [main] of [code.py].  The result is the document [main] prints with
    [json.dumps(..., sort_keys=True)] and the exit status. *)
Module CodeCli.

(** The parsed arguments: [--list-keys], [--key], [--pretty]. *)
Record args : Type := {
  list_keys : bool;
  key : option string;
  pretty : bool
}.

(** What is printed: [{"available_keys": keys}], the dictionary of
    [get_specific_key], what [get_all_metadata] returns, or
    [{"error": str(e)}]. *)
Inductive document : Type :=
| AvailableKeys (keys : list string)
| KeyResult (d : dict)
| Metadata (v : pyval)
| ErrorResult (msg : string).

Definition main (svc : service) (a : args) (fuel : nat)
    : option (document * nat) :=
  if list_keys a then
    match Code._make_request svc "" with
    | Returned content =>
        Some (AvailableKeys
                (map (PyStr.rstrip PyStr.slash)
                   (PyStr.split PyStr.LF (PyStr.strip content))), 0)
    | Raised msg => Some (ErrorResult msg, 1)
    end
  else
    match key a with
    | Some k =>
        if PyStr.truthy k then Some (KeyResult (Code.get_specific_key svc k), 0)
        else option_map (fun v => (Metadata v, 0)) (Code.get_all_metadata svc fuel)
    | None =>
        option_map (fun v => (Metadata v, 0)) (Code.get_all_metadata svc fuel)
    end.

End CodeCli.

(** A service that is out of reach. *)
Definition svc_down : service := fun _ => RequestException "Read timed out.".

(** ** The clients and their token

    The metadata service as the clients see it: the token endpoint,
    asked with PUT, and the metadata endpoint, asked with GET with or
    without the token header; both read the world and may change it. *)
Section Clients.
Variable W : Type.
Variable put_token : W -> response * W.
Variable get_metadata : option string -> string -> W -> response * W.

(** The header a client sends for the token it holds: [if self.token]. *)
Definition token_header (token : option string) : option string :=
  match token with
  | Some t => if PyStr.truthy t then Some t else None
  | None => None
  end.

(** [_get_imds_token] of [aws_metadata_query.py], which [__init__]
    stores in [self.token]: the body of the answer, or [None]. *)
Definition _get_imds_token (w : W) : option string * W :=
  match put_token w with
  | (Body text, w') => (Some text, w')
  | (RequestException _, w') => (None, w')
  end.

(** [get_all_metadata] of a client of [aws_metadata_query.py] that was
    built in the world [w]. *)
Definition query_client_all (fuel : nat) (w : W) : option (pyval * W) :=
  let (token, w') := _get_imds_token w in
  QueryIO._get_nested_metadata W (get_metadata (token_header token)) fuel "" w'.

(** [_get_token] of [code.py]: the new value of [self.token]. *)
Definition _get_token (token : option string) (w : W) : option string * W :=
  match put_token w with
  | (Body text, w') => (Some text, w')
  | (RequestException _, w') => (token, w')
  end.

(** [if not self.token: self._get_token()] *)
Definition ensure_token (token : option string) (w : W) : option string * W :=
  match token_header token with
  | Some _ => (token, w)
  | None => _get_token token w
  end.

(** The two operations of a client of [code.py]. *)
Inductive operation : Type :=
| GetAllMetadata (fuel : nat)
| GetSpecificKey (key_path : string).

(** One operation of a client of [code.py] that holds [token]: what it
    returns, the token it holds afterwards and the world it leaves. *)
Definition code_client_step (op : operation) (token : option string) (w : W)
    : option (pyval * option string * W) :=
  let (token', w') := ensure_token token w in
  match op with
  | GetAllMetadata fuel =>
      match CodeIO._get_metadata_recursive W
              (get_metadata (token_header token')) fuel "" w' with
      | None => None
      | Some (v, w'') => Some (v, token', w'')
      end
  | GetSpecificKey key_path =>
      match CodeIO._make_request W (get_metadata (token_header token'))
              key_path w' with
      | (Returned value, w'') => Some (VDict [(key_path, VStr value)], token', w'')
      | (Raised e, w'') =>
          Some (VDict [("error",
                        VStr ("Could not retrieve key '" ++ key_path ++ "': " ++ e))],
                token', w'')
      end
  end.

(** A sequence of operations of one client, with the results in order. *)
Fixpoint code_client_run (ops : list operation) (token : option string) (w : W)
    : option (list pyval * option string * W) :=
  match ops with
  | [] => Some ([], token, w)
  | op :: rest =>
      match code_client_step op token w with
      | None => None
      | Some (v, token', w') =>
          match code_client_run rest token' w' with
          | None => None
          | Some (vs, token'', w'') => Some (v :: vs, token'', w'')
          end
      end
  end.

End Clients.

(** A token endpoint that is out of reach, one that answers, and a
    metadata endpoint that answers as [svc] with and without a token;
    the world counts the requests. *)
Definition put_down : nat -> response * nat :=
  fun n => (RequestException "Read timed out.", S n).

Definition put_up : nat -> response * nat :=
  fun n => (Body "AQAEAJ", S n).

Definition get_any_token (svc : service) : option string -> string -> nat -> response * nat :=
  fun _ p n => (svc p, S n).

(** ** aws_metadata_query.py with the exceptions it does not catch

    [urljoin(base_url, endpoint)] raises a [ValueError] for some paths
    (["//["] is one), before any request is made, and the interpreter
    raises a [RecursionError] when calls nest too deep.  Neither is a
    [requests.RequestException]: [_make_request] of
    [aws_metadata_query.py] lets them through, and only the handlers of
    [get_all_metadata] and [main] catch them. *)

(** What asking for a path comes to: the URL is refused with the message
    of the [ValueError], or the request is sent. *)
Inductive attempt : Type :=
| Refused (msg : string)
| Sent (r : response).

Definition web : Type := string -> attempt.

(** A service whose every URL is accepted. *)
Definition sent (svc : service) : web := fun p => Sent (svc p).

Module QueryExn.
Import PyStr.

(** The message of the [RecursionError]; no caller modelled here reads
    it. *)
Definition recursion_error : string := "maximum recursion depth exceeded".

Section Client.
Variable net : web.

(** [_make_request]: a [ValueError] of [urljoin] is raised, a
    [RequestException] is caught and gives [None]. *)
Definition _make_request (endpoint : string) : outcome (option string) :=
  match net endpoint with
  | Refused msg => Raised msg
  | Sent (Body text) => Returned (Some text)
  | Sent (RequestException _) => Returned None
  end.

(** [_is_directory]: [content is not None and content.endswith('/')]. *)
Definition _is_directory (endpoint : string) : outcome bool :=
  match _make_request endpoint with
  | Raised msg => Raised msg
  | Returned None => Returned false
  | Returned (Some content) => Returned (endswith slash content)
  end.

(** The value stored for one item of the loop of lines 79-88. *)
Definition item_value (rec : string -> outcome pyval)
    (endpoint item : string) : outcome pyval :=
  let item_endpoint := Query.item_endpoint_of endpoint item in
  match _make_request (rstrip slash item_endpoint) with
  | Raised msg => Raised msg
  | Returned item_content =>
      if Query.is_subdirectory item_content then rec item_endpoint
      else Returned (Query.of_optional item_content)
  end.

(** The loop of lines 79-88 over the remaining items. *)
Fixpoint walk_items (rec : string -> outcome pyval) (endpoint : string)
    (items : list string) (result : dict) : outcome dict :=
  match items with
  | [] => Returned result
  | item :: rest =>
      match item_value rec endpoint item with
      | Raised msg => Raised msg
      | Returned v => walk_items rec endpoint rest (dict_set item v result)
      end
  end.

(** [_get_nested_metadata]; [limit] is the number of nested calls of the
    walker the interpreter allows. *)
Fixpoint _get_nested_metadata (limit : nat) (endpoint : string)
    : outcome pyval :=
  match limit with
  | 0 => Raised recursion_error
  | S limit' =>
      match _make_request endpoint with
      | Raised msg => Raised msg
      | Returned None => Returned (VDict [])
      | Returned (Some content) =>
          if Query.is_listing content then
            match walk_items (_get_nested_metadata limit') endpoint
                    (Query._parse_directory content) [] with
            | Raised msg => Raised msg
            | Returned d => Returned (VDict d)
            end
          else Returned (VStr content)
      end
  end.

(** [get_all_metadata], with the handler of lines 100-102. *)
Definition get_all_metadata (limit : nat) : pyval :=
  match _get_nested_metadata limit "" with
  | Returned metadata => metadata
  | Raised _ => VDict []
  end.

(** [get_metadata_key] *)
Definition get_metadata_key (key : string) : outcome (option string) :=
  _make_request (Query.key_path_of key).

(** [list_available_keys]: [collect_keys] raises the [AttributeError] of
    [.items()] on what is no dictionary. *)
Definition list_available_keys (limit : nat) : outcome (list string) :=
  match get_all_metadata limit with
  | VDict d => Returned (Query.collect_keys d "")
  | VStr _ => Raised "'str' object has no attribute 'items'"
  | VNone => Raised "'NoneType' object has no attribute 'items'"
  end.

(** [json.dumps(v)], or [json.dumps(v, indent=2)] when its first
    argument is [true]. *)
Variable json_dumps : bool -> pyval -> string.

(** [main]: the lines it prints itself and the exit status. *)
Definition main (a : QueryCli.args) (limit : nat) : list string * nat :=
  let all_mode :=
    let metadata := get_all_metadata limit in
    if py_truthy metadata then ([json_dumps (QueryCli.pretty a) metadata], 0)
    else (["No metadata found or unable to connect to metadata service"], 1) in
  if QueryCli.list_flag a then
    match list_available_keys limit with
    | Raised e => (["Unexpected error: " ++ e], 1)
    | Returned [] =>
        (["No metadata keys found or unable to connect to metadata service"], 1)
    | Returned keys =>
        ("Available metadata keys:"
           :: map (fun key => "  " ++ key) (StringSort.sort keys), 0)
    end
  else
    match QueryCli.key a with
    | Some k =>
        if truthy k then
          match get_metadata_key k with
          | Raised e => (["Unexpected error: " ++ e], 1)
          | Returned (Some value) =>
              if QueryCli.raw a then ([value], 0)
              else ([json_dumps (QueryCli.pretty a) (VDict [(k, VStr value)])], 0)
          | Returned None => (["Key '" ++ k ++ "' not found or inaccessible"], 1)
          end
        else all_mode
    | None => all_mode
    end.

End Client.
End QueryExn.

(** ** code.py with the exceptions of [urljoin]

    [_make_request] of [code.py] calls [urljoin] before its [try]: the
    [ValueError] leaves [_make_request] as it is, and a
    [RequestException] leaves it as the [Exception] of line 41.  Either
    is caught by the handler around the call: lines 48, 73 and 78. *)
Module CodeExn.
Import PyStr.

Section Client.
Variable net : web.

(** [_make_request] *)
Definition _make_request (path : string) : outcome string :=
  match net path with
  | Refused msg => Raised msg
  | Sent (Body text) => Returned text
  | Sent (RequestException e) =>
      Raised ("Failed to retrieve metadata from " ++ path ++ ": " ++ e)
  end.

(** [_is_directory]: the bare [except] turns every exception into
    [False]. *)
Definition _is_directory (path : string) : bool :=
  match _make_request path with
  | Returned content => endswith slash content
  | Raised _ => false
  end.

(** The value stored for one non-empty line (lines 62-74); [rec] is
    the recursive call. *)
Definition line_value (rec : string -> option pyval)
    (path line : string) : option pyval :=
  let item_path := Code.item_path_of path line in
  if endswith slash line then rec item_path
  else match _make_request item_path with
       | Returned value => Some (VStr value)
       | Raised e => Some (VStr ("Error: " ++ e))
       end.

(** The loop of lines 58-74 over the remaining lines. *)
Fixpoint walk_lines (rec : string -> option pyval) (path : string)
    (lines : list string) (result : dict) : option dict :=
  match lines with
  | [] => Some result
  | line :: rest =>
      if truthy line then
        match line_value rec path line with
        | None => None
        | Some v =>
            walk_lines rec path rest (dict_set (Code.key_of line) v result)
        end
      else walk_lines rec path rest result
  end.

(** [_get_metadata_recursive]; [fuel] bounds the depth of the
    recursion, [None] says the bound was reached. *)
Fixpoint _get_metadata_recursive (fuel : nat) (path : string)
    : option pyval :=
  match fuel with
  | 0 => None
  | S fuel' =>
      match _make_request path with
      | Raised e => Some (VStr ("Error retrieving " ++ path ++ ": " ++ e))
      | Returned content =>
          option_map VDict
            (walk_lines (_get_metadata_recursive fuel') path
               (split LF (strip content)) [])
      end
  end.

End Client.
End CodeExn.

(** The request the loop of [aws_metadata_query.py] makes for the child
    [Y] of [endpoint] is sent, and when it finds a subdirectory the walk
    of that subdirectory returns. *)
Definition query_child_returns (net : web) (limit : nat)
    (endpoint Y : string) : Prop :=
  match net (PyStr.rstrip PyStr.slash (Query.item_endpoint_of endpoint Y)) with
  | Refused _ => False
  | Sent (RequestException _) => True
  | Sent (Body c) =>
      Query.is_subdirectory (Some c) = true ->
      exists v, QueryExn._get_nested_metadata net limit
                  (Query.item_endpoint_of endpoint Y) = Returned v
  end.

(** A path that answers with a non-empty listing does not answer with a
    single value when it is followed by the separator. *)
Definition directories_list (svc : service) : Prop :=
  forall q c c',
    svc q = Body c -> Query.is_subdirectory (Some c) = true ->
    svc (q ++ "/") = Body c' -> Query.is_listing c' = true.

(** The endpoint of a walk and the prefix of the keys enumerated below
    it: both empty at the root, the endpoint the prefix with a separator
    below. *)
Definition linked (endpoint prefix : string) : Prop :=
  (endpoint = "" /\ prefix = "") \/ (prefix <> "" /\ endpoint = prefix ++ "/").

(** A directory that lists under its name and answers with a single
    value under its name followed by the separator. *)
Definition svc_value_dir : service := fun p =>
  if String.eqb p "" then Body ("d" ++ PyStr.nl)
  else if String.eqb p "d" then Body ("x" ++ PyStr.nl)
  else if String.eqb p "d/" then Body "v"
  else RequestException "404 Client Error: Not Found".

(** A root whose listing holds the line ["/"], an empty name. *)
Definition svc_empty_name : service := fun p =>
  if String.eqb p "" then Body ("/" ++ PyStr.nl)
  else if String.eqb p "/" then Body ("x" ++ PyStr.nl)
  else if String.eqb p "/x" then Body "v"
  else RequestException "404 Client Error: Not Found".

(** The scenario with a time-out on [ami-id] and one more listed name,
    whose URL [urljoin] refuses. *)
Definition net_refusing : web := fun p =>
  if String.eqb p "" then Sent (Body (root_listing ++ "//[" ++ PyStr.nl))
  else if String.eqb p "//[" then Refused "Invalid IPv6 URL"
  else Sent (svc_timeout p).

(** What a walk bounded by [fuel] that gave no result is to the
    interpreter: a [RecursionError]. *)
Definition or_recursion_error {A : Type} (o : option A) : outcome A :=
  match o with
  | Some a => Returned a
  | None => Raised QueryExn.recursion_error
  end.

(** * Properties *)

(** ** Proof tools *)

(** Case analysis on membership in a list that evaluates to closed
    strings. *)
Ltac each_member H :=
  vm_compute in H;
  repeat match type of H with
         | _ \/ _ => destruct H as [H|H]
         end;
  [subst .. | contradiction].

(** Case analysis on the path a scenario service is asked for. *)
Ltac by_path H :=
  repeat match type of H with
         | context [String.eqb ?a ?b] =>
             destruct (String.eqb_spec a b); [subst|]
         end.

(** ** Strings *)

Section StringFacts.
Import PyStr.

Lemma string_app_nil_r (s : string) : s ++ "" = s.
Proof. induction s as [|a s IH]; simpl; [reflexivity | now rewrite IH]. Qed.

Lemma string_app_assoc (s t u : string) : (s ++ t) ++ u = s ++ t ++ u.
Proof. induction s as [|a s IH]; simpl; [reflexivity | now rewrite IH]. Qed.

(** A character that does not occur is not replaced. *)
Lemma replace_absent (a b : ascii) (s : string) :
  contains a s = false -> replace a b s = s.
Proof.
  induction s as [|c s IH]; simpl; [reflexivity|].
  intros H. apply orb_false_iff in H as [Hc Hs].
  rewrite Hc, (IH Hs). reflexivity.
Qed.

Lemma key_path_of_map (key : string) :
  Query.key_path_of key = string_map norm_char key.
Proof.
  unfold Query.key_path_of.
  induction key as [|c key IH]; simpl; [reflexivity|].
  rewrite IH. f_equal. unfold norm_char.
  destruct (Ascii.eqb c ".") eqn:Hdot; [reflexivity|].
  reflexivity.
Qed.

Lemma norm_char_not_alias (c : ascii) :
  Ascii.eqb (norm_char c) "." = false /\ Ascii.eqb (norm_char c) "_" = false.
Proof.
  unfold norm_char.
  destruct (Ascii.eqb c ".") eqn:Hdot; [split; reflexivity|].
  destruct (Ascii.eqb c "_") eqn:Hus; [split; reflexivity|].
  split; assumption.
Qed.

Lemma string_map_norm_no_alias (key : string) :
  contains "." (string_map norm_char key) = false
  /\ contains "_" (string_map norm_char key) = false.
Proof.
  induction key as [|c key [IH1 IH2]]; simpl; [split; reflexivity|].
  destruct (norm_char_not_alias c) as [H1 H2].
  rewrite H1, H2, IH1, IH2. split; reflexivity.
Qed.

End StringFacts.

(** ** Dictionaries *)

Section DictFacts.

Lemma dict_get_set_same (k : string) (v : pyval) (d : dict) :
  dict_get k (dict_set k v d) = Some v.
Proof.
  induction d as [|[k' v'] d IH]; simpl.
  - now rewrite String.eqb_refl.
  - destruct (String.eqb k' k) eqn:E; simpl; rewrite E; [reflexivity | exact IH].
Qed.

Lemma dict_get_set_other (k k0 : string) (v : pyval) (d : dict) :
  k0 <> k -> dict_get k (dict_set k0 v d) = dict_get k d.
Proof.
  intros Hne. induction d as [|[k' v'] d IH]; simpl.
  - destruct (String.eqb_spec k0 k); [contradiction | reflexivity].
  - destruct (String.eqb_spec k' k0) as [->|Hk]; simpl.
    + destruct (String.eqb_spec k0 k); [contradiction | reflexivity].
    + destruct (String.eqb_spec k' k); [reflexivity | exact IH].
Qed.

Lemma keys_dict_set (k k0 : string) (v : pyval) (d : dict) :
  In k (keys (dict_set k0 v d)) <-> k = k0 \/ In k (keys d).
Proof.
  unfold keys. induction d as [|[k' v'] d IH]; simpl.
  - intuition congruence.
  - destruct (String.eqb_spec k' k0) as [->|Hk]; simpl.
    + intuition congruence.
    + rewrite IH. intuition congruence.
Qed.

Lemma in_dict_set (k k0 : string) (v v0 : pyval) (d : dict) :
  In (k, v) (dict_set k0 v0 d) -> (k = k0 /\ v = v0) \/ In (k, v) d.
Proof.
  induction d as [|[k' v'] d IH]; simpl.
  - intros [H|[]]. left. split; congruence.
  - destruct (String.eqb_spec k' k0) as [->|Hk]; simpl.
    + intros [H|H]; [left; split; congruence | right; right; exact H].
    + intros [H|H]; [right; left; exact H|].
      destruct (IH H) as [?|?]; [left; assumption | right; right; assumption].
Qed.

Lemma dict_get_keys (k : string) (d : dict) :
  In k (keys d) <-> exists v, dict_get k d = Some v.
Proof.
  unfold keys. induction d as [|[k' v'] d IH]; simpl.
  - split; [intros [] | intros [v H]; discriminate].
  - destruct (String.eqb_spec k' k) as [->|Hk].
    + split; [intros _; eexists; reflexivity | intros _; left; reflexivity].
    + rewrite <- IH. intuition congruence.
Qed.

End DictFacts.

(** ** Lines, names and paths *)

Lemma rstrip_app_slash (p : string) :
  PyStr.rstrip PyStr.slash (p ++ "/") = PyStr.rstrip PyStr.slash p.
Proof.
  unfold PyStr.rstrip. induction p as [|a r IH]; simpl; [reflexivity|].
  now rewrite IH.
Qed.

Lemma string_app_snoc (pre r : string) (a : ascii) :
  (pre ++ String a "") ++ r = pre ++ String a r.
Proof. now rewrite string_app_assoc. Qed.

Section KeyFacts.
Import PyStr.

Lemma split_nonempty (c : ascii) (s : string) : split c s <> [].
Proof.
  destruct s as [|a r]; simpl; [discriminate|].
  destruct (Ascii.eqb a c); [discriminate|].
  destruct (split c r); discriminate.
Qed.

(** No line of a split holds the separator it was split on. *)
Lemma split_no_separator (c : ascii) (s : string) :
  forall line, In line (split c s) -> contains c line = false.
Proof.
  induction s as [|a r IH]; simpl; intros line Hin.
  - destruct Hin as [<-|[]]. reflexivity.
  - destruct (Ascii.eqb a c) eqn:Hac.
    + destruct Hin as [<-|Hin]; [reflexivity | now apply IH].
    + destruct (split c r) as [|h t] eqn:Hs.
      * destruct Hin as [<-|[]]. simpl. now rewrite Hac.
      * destruct Hin as [<-|Hin].
        -- simpl. rewrite Hac. apply IH. now left.
        -- apply IH. now right.
Qed.

Lemma rstrip_with_contains (p : ascii -> bool) (c : ascii) (s : string) :
  contains c s = false -> contains c (rstrip_with p s) = false.
Proof.
  induction s as [|a r IH]; simpl; [trivial|].
  intros H. apply orb_false_iff in H as [Ha Hr]. specialize (IH Hr).
  destruct (rstrip_with p r) as [|b r'].
  - destruct (p a); simpl; [reflexivity | now rewrite Ha].
  - simpl in *. now rewrite Ha, IH.
Qed.

Lemma drop_last_contains (c : ascii) (s : string) :
  contains c s = false -> contains c (drop_last s) = false.
Proof.
  induction s as [|a r IH]; simpl; [trivial|].
  intros H. apply orb_false_iff in H as [Ha Hr]. specialize (IH Hr).
  destruct r as [|b r']; [reflexivity|].
  simpl in *. now rewrite Ha, IH.
Qed.

(** What [rstrip('/')] returns does not end with ['/']. *)
Lemma rstrip_not_endswith (c : ascii) (s : string) :
  endswith c (rstrip c s) = false.
Proof.
  unfold rstrip. induction s as [|a r IH]; simpl; [reflexivity|].
  destruct (rstrip_with (Ascii.eqb c) r) as [|b r'] eqn:Hr.
  - destruct (Ascii.eqb c a) eqn:Hca; simpl; [reflexivity|].
    now rewrite Ascii.eqb_sym.
  - exact IH.
Qed.

Lemma parse_directory_keys_ok (content item : string) :
  In item (Query._parse_directory content) -> query_key_ok item.
Proof.
  unfold Query._parse_directory. intros Hin.
  apply in_map_iff in Hin as [line [<- Hline]].
  apply filter_In in Hline as [Hline _].
  split.
  - apply rstrip_with_contains. exact (split_no_separator _ _ _ Hline).
  - apply rstrip_not_endswith.
Qed.

Lemma key_of_no_newline (content line : string) :
  In line (split LF (strip content)) -> contains LF (Code.key_of line) = false.
Proof.
  intros Hline. pose proof (split_no_separator _ _ _ Hline) as H.
  unfold Code.key_of. destruct (endswith slash line); [|exact H].
  now apply drop_last_contains.
Qed.

End KeyFacts.

Section PathFacts.
Import PyStr.

Lemma rstrip_id (c : ascii) (s : string) :
  endswith c s = false -> rstrip c s = s.
Proof.
  unfold rstrip. induction s as [|a r IH]; simpl; [reflexivity|].
  destruct r as [|b r'].
  - intros H. simpl. rewrite Ascii.eqb_sym, H. reflexivity.
  - intros H. rewrite (IH H). reflexivity.
Qed.

Lemma rstrip_app_keep (c : ascii) (a b : string) :
  rstrip c b <> "" -> rstrip c (a ++ b) = a ++ rstrip c b.
Proof.
  intros Hb. unfold rstrip in *. induction a as [|x a IH]; simpl; [reflexivity|].
  rewrite IH. destruct (a ++ rstrip_with (Ascii.eqb c) b) eqn:E; [|reflexivity].
  destruct a; simpl in E; [contradiction | discriminate].
Qed.

Lemma drop_last_snoc (c : ascii) (s : string) :
  drop_last (s ++ String c "") = s.
Proof.
  induction s as [|a r IH]; simpl; [reflexivity|].
  rewrite IH. destruct r; reflexivity.
Qed.

Lemma item_endpoint_of_app (endpoint item : string) :
  Query.item_endpoint_of endpoint item = endpoint ++ item ++ "/".
Proof. destruct endpoint; reflexivity. Qed.

End PathFacts.

(** ** Leaf answers (C1) *)

(** C1, as stated, fails for [code.py]: its walker reads every answer as
    a listing, so the leaf answer [us-east-1a] of the path [placement/]
    comes back as a dictionary with the answer as a key, not as the
    value [us-east-1a]. *)
Lemma leaf_answer_code_counterexample :
  Query.is_listing "us-east-1a" = false
  /\ svc_leaf_dir "placement/" = Body "us-east-1a"
  /\ Code._get_metadata_recursive svc_leaf_dir 2 "placement/"
     = Some (VDict [("us-east-1a",
          VStr "Error: Failed to retrieve metadata from placement/us-east-1a: 404 Client Error: Not Found")])
  /\ Code._get_metadata_recursive svc_leaf_dir 2 "placement/"
     <> Some (VStr "us-east-1a").
Proof. repeat split; try reflexivity. vm_compute. discriminate. Qed.

(** C1 (amended): in [aws_metadata_query.py] the walk of a path whose
    answer is a leaf (no newline, no trailing ['/']) returns that answer
    unchanged, at any depth bound of at least one call.  In [code.py]
    the walker chooses by the listing line, not by the answer: the
    answer to a line that does not end with ['/'] is stored unchanged,
    whatever it holds, and the walk of a path that answers is always a
    dictionary. *)
Theorem leaf_answer_is_value :
  (forall (svc : service) (fuel : nat) (endpoint text : string),
      svc endpoint = Body text ->
      Query.is_listing text = false ->
      Query._get_nested_metadata svc (S fuel) endpoint = Some (VStr text))
  /\ (forall (svc : service) (rec : string -> option pyval)
        (path line text : string),
      PyStr.endswith PyStr.slash line = false ->
      svc (Code.item_path_of path line) = Body text ->
      Code.line_value svc rec path line = Some (VStr text))
  /\ (forall (svc : service) (fuel : nat) (path content : string) (v : pyval),
      svc path = Body content ->
      Code._get_metadata_recursive svc fuel path = Some v ->
      is_dict v = true).
Proof.
  split; [|split].
  - intros svc fuel endpoint text Hsvc Hleaf. simpl.
    unfold Query._make_request. rewrite Hsvc, Hleaf. reflexivity.
  - intros svc rec path line text Hline Hsvc.
    unfold Code.line_value, Code._make_request. rewrite Hline, Hsvc. reflexivity.
  - intros svc [|fuel] path content v Hsvc; simpl; [discriminate|].
    unfold Code._make_request. rewrite Hsvc.
    destruct (Code.walk_lines _ _ _ _); simpl; intros H; inversion H; reflexivity.
Qed.

Lemma leaf_answer_is_value_witness :
  Query._get_nested_metadata svc_leaf_dir 1 "placement/" = Some (VStr "us-east-1a")
  /\ Code.line_value svc_scenario (fun _ => None) "placement/" "availability-zone"
     = Some (VStr "us-east-1a")
  /\ is_dict (VDict [("availability-zone", VStr "us-east-1a")]) = true.
Proof.
  split; [|split].
  - apply (proj1 leaf_answer_is_value svc_leaf_dir 0 "placement/" "us-east-1a");
      reflexivity.
  - apply (proj1 (proj2 leaf_answer_is_value)); reflexivity.
  - apply (proj2 (proj2 leaf_answer_is_value) svc_scenario 2 "placement/"
             ("availability-zone" ++ PyStr.nl)); reflexivity.
Defined.

(** ** The empty answer (C3) *)

(** C3, as stated, fails for [aws_metadata_query.py]: an empty body
    neither ends with ['/'] nor holds a newline, so the walk returns it
    as the value [""], not as an empty dictionary. *)
Lemma empty_answer_query_counterexample :
  svc_empty "" = Body ""
  /\ Query._get_nested_metadata svc_empty 1 "" = Some (VStr "")
  /\ Query._get_nested_metadata svc_empty 1 "" <> Some (VDict []).
Proof. repeat split; try reflexivity. vm_compute. discriminate. Qed.

(** C3 (amended): when the service answers a path with the empty string,
    the walk of [code.py] returns the empty dictionary, and the walk of
    [aws_metadata_query.py] returns the empty string as a value; neither
    is an error. *)
Theorem empty_answer :
  (forall (svc : service) (fuel : nat) (path : string),
      svc path = Body "" ->
      Code._get_metadata_recursive svc (S fuel) path = Some (VDict []))
  /\ (forall (svc : service) (fuel : nat) (endpoint : string),
      svc endpoint = Body "" ->
      Query._get_nested_metadata svc (S fuel) endpoint = Some (VStr "")).
Proof.
  split; intros svc fuel p Hsvc; simpl.
  - unfold Code._make_request. rewrite Hsvc. reflexivity.
  - unfold Query._make_request. rewrite Hsvc. reflexivity.
Qed.

Lemma empty_answer_witness :
  Code._get_metadata_recursive svc_empty 1 "" = Some (VDict [])
  /\ Query._get_nested_metadata svc_empty 1 "" = Some (VStr "").
Proof.
  split.
  - apply (proj1 empty_answer svc_empty 0 ""). reflexivity.
  - apply (proj2 empty_answer svc_empty 0 ""). reflexivity.
Defined.

(** ** Lookup of one key (C5, C6) *)

(** C5, as stated, fails: [get_metadata_key] turns ['_'] into ['-'], not
    into ['/'], so the key [instance_id] is fetched from [instance-id]
    and not from [instance/id]. *)
Lemma lookup_underscore_counterexample :
  spec_normalize "instance_id" = "instance/id"
  /\ Query.key_path_of "instance_id" = "instance-id"
  /\ Query.get_metadata_key svc_scenario "instance_id" = Some "i-0123"
  /\ Query._make_request svc_scenario (spec_normalize "instance_id") = None
  /\ Query.get_metadata_key svc_scenario "instance_id"
     <> Query._make_request svc_scenario (spec_normalize "instance_id").
Proof. repeat split; try reflexivity. vm_compute. discriminate. Qed.

(** C5 (amended): [get_metadata_key] of [aws_metadata_query.py] makes one
    request, for the key with every ['.'] replaced by ['/'] and every
    ['_'] replaced by ['-']; the path it asks for holds neither alias
    character, so normalising again changes nothing.
    [get_specific_key] of [code.py] asks for the key as it is given. *)
Theorem lookup_normalises_key :
  forall (svc : service) (key : string),
    Query.get_metadata_key svc key
    = Query._make_request svc (string_map norm_char key)
    /\ PyStr.contains "." (Query.key_path_of key) = false
    /\ PyStr.contains "_" (Query.key_path_of key) = false
    /\ Query.key_path_of (Query.key_path_of key) = Query.key_path_of key
    /\ (forall text : string,
          svc key = Body text ->
          Code.get_specific_key svc key = [(key, VStr text)]).
Proof.
  intros svc key.
  destruct (string_map_norm_no_alias key) as [Hdot Hus].
  rewrite <- key_path_of_map in Hdot, Hus.
  split; [|split; [|split; [|split]]].
  - unfold Query.get_metadata_key. now rewrite key_path_of_map.
  - exact Hdot.
  - exact Hus.
  - unfold Query.key_path_of at 1.
    rewrite (replace_absent "." "/" _ Hdot).
    apply replace_absent. exact Hus.
  - intros text Hsvc. unfold Code.get_specific_key, Code._make_request.
    rewrite Hsvc. reflexivity.
Qed.

Lemma lookup_normalises_key_witness :
  Query.get_metadata_key svc_scenario "placement.availability_zone"
  = Query._make_request svc_scenario "placement/availability-zone"
  /\ Code.get_specific_key svc_scenario "placement/availability-zone"
     = [("placement/availability-zone", VStr "us-east-1a")].
Proof.
  split.
  - exact (proj1 (lookup_normalises_key svc_scenario "placement.availability_zone")).
  - apply (proj2 (proj2 (proj2 (proj2
      (lookup_normalises_key svc_scenario "placement/availability-zone"))))).
    reflexivity.
Defined.

(** C6, as stated, fails for [aws_metadata_query.py]: when the request
    fails, [get_metadata_key] returns [None], which holds neither the
    key nor the message of the failure. *)
Lemma lookup_failure_query_counterexample :
  svc_timeout (Query.key_path_of "ami-id") = RequestException "Read timed out."
  /\ Query.get_metadata_key svc_timeout "ami-id" = None
  /\ ~ (exists t, Query.get_metadata_key svc_timeout "ami-id" = Some t
                  /\ occurs_in "ami-id" t /\ occurs_in "Read timed out." t).
Proof.
  repeat split; try reflexivity.
  intros [t [H _]]. vm_compute in H. discriminate.
Qed.

Lemma occurs_in_here (s post : string) : occurs_in s (s ++ post).
Proof. exists "", post. reflexivity. Qed.

Lemma occurs_in_app (s p t : string) : occurs_in s t -> occurs_in s (p ++ t).
Proof.
  intros [pre [post ->]]. exists (p ++ pre), post.
  now rewrite string_app_assoc.
Qed.

Lemma occurs_in_end (s : string) : occurs_in s s.
Proof. exists "", "". simpl. now rewrite string_app_nil_r. Qed.

(** C6 (amended): when the request for the key fails with message [e],
    [get_specific_key] of [code.py] returns a dictionary with the single
    entry [error], whose text holds the key and [e];
    [get_metadata_key] of [aws_metadata_query.py] returns [None]. *)
Theorem lookup_failure :
  (forall (svc : service) (key e : string),
      svc key = RequestException e ->
      exists msg : string,
        Code.get_specific_key svc key = [("error", VStr msg)]
        /\ msg = "Could not retrieve key '" ++ key
                 ++ "': Failed to retrieve metadata from " ++ key ++ ": " ++ e
        /\ occurs_in key msg /\ occurs_in e msg)
  /\ (forall (svc : service) (key e : string),
      svc (Query.key_path_of key) = RequestException e ->
      Query.get_metadata_key svc key = None).
Proof.
  split.
  - intros svc key e Hsvc.
    eexists. split; [|split; [reflexivity|split]].
    + unfold Code.get_specific_key, Code._make_request. rewrite Hsvc. reflexivity.
    + apply occurs_in_app. apply occurs_in_here.
    + do 5 apply occurs_in_app. apply occurs_in_end.
  - intros svc key e Hsvc.
    unfold Query.get_metadata_key, Query._make_request. now rewrite Hsvc.
Qed.

Lemma lookup_failure_witness :
  (exists msg : string,
      Code.get_specific_key svc_timeout "ami-id" = [("error", VStr msg)]
      /\ msg = "Could not retrieve key 'ami-id': Failed to retrieve metadata from ami-id: Read timed out."
      /\ occurs_in "ami-id" msg /\ occurs_in "Read timed out." msg)
  /\ Query.get_metadata_key svc_timeout "ami-id" = None.
Proof.
  split.
  - apply (proj1 lookup_failure svc_timeout "ami-id" "Read timed out.").
    reflexivity.
  - apply (proj2 lookup_failure svc_timeout "ami-id" "Read timed out.").
    reflexivity.
Defined.

(** ** The loop over the items of a listing *)

Section QueryLoop.
Variable svc : service.
Variable rec : string -> option pyval.
Variable endpoint : string.

Local Abbreviation node := (Query.item_value svc rec endpoint).
Local Abbreviation loop := (Query.walk_items svc rec endpoint).

Lemma walk_items_total (items : list string) :
  (forall item, In item items -> node item <> None) ->
  forall acc, exists d, loop items acc = Some d.
Proof.
  induction items as [|item rest IH]; intros Hfin acc; simpl.
  - now exists acc.
  - destruct (node item) as [v|] eqn:Hv.
    + apply IH. intros i Hi. apply Hfin. now right.
    + exfalso. apply (Hfin item); [now left | exact Hv].
Qed.




Lemma walk_items_in (items : list string) :
  forall acc d, loop items acc = Some d ->
  forall k v, In (k, v) d ->
  In (k, v) acc \/ (In k items /\ node k = Some v).
Proof.
  induction items as [|item rest IH]; intros acc d H k v Hin; simpl in H.
  - inversion H; subst. now left.
  - destruct (node item) as [v0|] eqn:Hv; [|discriminate].
    destruct (IH _ _ H k v Hin) as [Hacc|[Hk Hn]].
    + destruct (in_dict_set _ _ _ _ _ Hacc) as [[-> ->]|Hold].
      * right. split; [now left | exact Hv].
      * now left.
    + right. split; [now right | exact Hn].
Qed.

End QueryLoop.

Section CodeLoop.
Import PyStr.
Variable svc : service.
Variable rec : string -> option pyval.
Variable path : string.

Local Abbreviation node := (Code.line_value svc rec path).
Local Abbreviation loop := (Code.walk_lines svc rec path).

(** The loop skips the empty lines. *)
Lemma walk_lines_filter (lines : list string) :
  forall acc, loop lines acc = loop (filter truthy lines) acc.
Proof.
  induction lines as [|line rest IH]; intros acc; simpl; [reflexivity|].
  destruct (truthy line) eqn:Ht; simpl.
  - rewrite Ht. destruct (node line); [apply IH | reflexivity].
  - apply IH.
Qed.



Lemma walk_lines_get_other (lines : list string) :
  Forall (fun line => truthy line = true) lines ->
  forall acc d, loop lines acc = Some d ->
  forall k, ~ In k (map Code.key_of lines) -> dict_get k d = dict_get k acc.
Proof.
  induction 1 as [|line rest Ht _ IH]; intros acc d H k Hk; simpl in H.
  - now inversion H.
  - rewrite Ht in H.
    destruct (node line) as [v|]; [|discriminate].
    rewrite (IH _ _ H k); [|intros Hin; apply Hk; now right].
    apply dict_get_set_other. intros Heq. apply Hk. now left.
Qed.

(** Last write wins: a key holds the value of the last line stored
    under it. *)
Lemma walk_lines_get_last (l1 l2 : list string) (line : string) :
  Forall (fun line => truthy line = true) (l1 ++ line :: l2) ->
  ~ In (Code.key_of line) (map Code.key_of l2) ->
  forall acc d, loop (l1 ++ line :: l2) acc = Some d ->
  dict_get (Code.key_of line) d = node line.
Proof.
  intros Hall Hlast.
  induction l1 as [|l0 l1 IH]; intros acc d H; simpl in H.
  - inversion Hall as [|? ? Ht Hrest]; subst.
    rewrite Ht in H.
    destruct (node line) as [v|] eqn:Hv; [|discriminate].
    rewrite (walk_lines_get_other l2 Hrest _ _ H _ Hlast).
    now rewrite dict_get_set_same.
  - inversion Hall as [|? ? Ht Hrest]; subst.
    rewrite Ht in H.
    destruct (node l0) as [v|]; [|discriminate].
    exact (IH Hrest _ _ H).
Qed.

(** Every entry of the result was stored for some line of the listing. *)
Lemma walk_lines_from_line (lines : list string) :
  Forall (fun line => truthy line = true) lines ->
  forall acc d, loop lines acc = Some d ->
  forall k v, dict_get k d = Some v ->
  dict_get k acc = Some v
  \/ exists line, In line lines /\ Code.key_of line = k /\ node line = Some v.
Proof.
  induction 1 as [|line rest Ht _ IH]; intros acc d H k v Hget; simpl in H.
  - inversion H; subst. now left.
  - rewrite Ht in H.
    destruct (node line) as [v0|] eqn:Hv; [|discriminate].
    destruct (IH _ _ H k v Hget) as [Hacc|[l [Hl [Hk Hn]]]].
    + destruct (string_dec (Code.key_of line) k) as [Heq|Hne].
      * subst k. rewrite dict_get_set_same in Hacc. inversion Hacc; subst.
        right. exists line. repeat split; [now left | exact Hv].
      * rewrite (dict_get_set_other _ _ _ _ Hne) in Hacc. now left.
    + right. exists l. repeat split; [now right | exact Hk | exact Hn].
Qed.

End CodeLoop.

(** ** Failures of children stay in their own entry (C2) *)

Lemma filter_truthy_all (lines : list string) :
  Forall (fun line => PyStr.truthy line = true) (filter PyStr.truthy lines).
Proof.
  apply Forall_forall. intros l Hl. now apply filter_In in Hl.
Qed.

(** The loop of [aws_metadata_query.py] when exceptions can pass
    through it. *)
Section QueryExnLoop.
Variable net : web.
Variable rec : string -> outcome pyval.
Variable endpoint : string.

Local Abbreviation node := (QueryExn.item_value net rec endpoint).
Local Abbreviation loop := (QueryExn.walk_items net rec endpoint).

Lemma exn_walk_items_returns (items : list string) :
  (forall item, In item items -> exists v, node item = Returned v) ->
  forall acc, exists d, loop items acc = Returned d.
Proof.
  induction items as [|item rest IH]; intros Hret acc; simpl.
  - now exists acc.
  - destruct (Hret item (or_introl eq_refl)) as [v Hv]. rewrite Hv.
    apply IH. intros i Hi. apply Hret. now right.
Qed.

Lemma exn_walk_items_raises (items : list string) :
  (exists item msg, In item items /\ node item = Raised msg) ->
  forall acc, exists msg, loop items acc = Raised msg.
Proof.
  induction items as [|item rest IH]; intros [i [msg [Hi Hm]]] acc; simpl.
  - destruct Hi.
  - destruct (node item) as [v|m] eqn:Hv; [|now exists m].
    apply IH. destruct Hi as [->|Hi]; [congruence|]. now exists i, msg.
Qed.

Lemma exn_walk_items_keys (items : list string) :
  forall acc d, loop items acc = Returned d ->
  forall k, In k (keys d) <-> In k (keys acc) \/ In k items.
Proof.
  induction items as [|item rest IH]; intros acc d H k; simpl in H.
  - inversion H; subst. simpl. tauto.
  - destruct (node item) as [v|]; [|discriminate].
    rewrite (IH _ _ H k), keys_dict_set. simpl.
    split; intros; intuition congruence.
Qed.

Lemma exn_walk_items_get_other (items : list string) :
  forall acc d, loop items acc = Returned d ->
  forall k, ~ In k items -> dict_get k d = dict_get k acc.
Proof.
  induction items as [|item rest IH]; intros acc d H k Hk; simpl in H.
  - now inversion H.
  - destruct (node item) as [v|]; [|discriminate].
    rewrite (IH _ _ H k); [|intros Hin; apply Hk; now right].
    apply dict_get_set_other. intros ->. apply Hk. now left.
Qed.

Lemma exn_walk_items_get_item (items : list string) :
  forall acc d, loop items acc = Returned d ->
  forall k, In k items ->
  exists v, node k = Returned v /\ dict_get k d = Some v.
Proof.
  induction items as [|item rest IH]; intros acc d H k Hk; simpl in H.
  - destruct Hk.
  - destruct (node item) as [v|] eqn:Hv; [|discriminate].
    destruct (in_dec string_dec k rest) as [Hin|Hnin].
    + exact (IH _ _ H k Hin).
    + destruct Hk as [->|Hk]; [|contradiction].
      exists v. split; [exact Hv|].
      rewrite (exn_walk_items_get_other _ _ _ H k Hnin).
      apply dict_get_set_same.
Qed.

End QueryExnLoop.

(** The loop of [code.py] when [urljoin] can refuse a path. *)
Section CodeExnLoop.
Import PyStr.
Variable net : web.
Variable rec : string -> option pyval.
Variable path : string.

Local Abbreviation node := (CodeExn.line_value net rec path).
Local Abbreviation loop := (CodeExn.walk_lines net rec path).

Lemma exn_walk_lines_filter (lines : list string) :
  forall acc, loop lines acc = loop (filter truthy lines) acc.
Proof.
  induction lines as [|line rest IH]; intros acc; simpl; [reflexivity|].
  destruct (truthy line) eqn:Ht; simpl.
  - rewrite Ht. destruct (node line); [apply IH | reflexivity].
  - apply IH.
Qed.

Lemma exn_walk_lines_total (lines : list string) :
  (forall line, In line lines -> node line <> None) ->
  forall acc, exists d, loop lines acc = Some d.
Proof.
  induction lines as [|line rest IH]; intros Hfin acc; simpl.
  - now exists acc.
  - assert (Hrest : forall l, In l rest -> node l <> None)
      by (intros l Hl; apply Hfin; now right).
    destruct (truthy line); [|now apply IH].
    destruct (node line) as [v|] eqn:Hv.
    + now apply IH.
    + exfalso. apply (Hfin line); [now left | exact Hv].
Qed.

Lemma exn_walk_lines_keys (lines : list string) :
  Forall (fun line => truthy line = true) lines ->
  forall acc d, loop lines acc = Some d ->
  forall k, In k (keys d) <-> In k (keys acc) \/ In k (map Code.key_of lines).
Proof.
  induction 1 as [|line rest Ht _ IH]; intros acc d H k; simpl in H.
  - inversion H; subst. simpl. tauto.
  - rewrite Ht in H.
    destruct (node line) as [v|]; [|discriminate].
    rewrite (IH _ _ H k), keys_dict_set. simpl.
    split; intros; intuition congruence.
Qed.

Lemma exn_walk_lines_get_other (lines : list string) :
  Forall (fun line => truthy line = true) lines ->
  forall acc d, loop lines acc = Some d ->
  forall k, ~ In k (map Code.key_of lines) -> dict_get k d = dict_get k acc.
Proof.
  induction 1 as [|line rest Ht _ IH]; intros acc d H k Hk; simpl in H.
  - now inversion H.
  - rewrite Ht in H.
    destruct (node line) as [v|]; [|discriminate].
    rewrite (IH _ _ H k); [|intros Hin; apply Hk; now right].
    apply dict_get_set_other. intros Heq. apply Hk. now left.
Qed.

(** Last write wins here too. *)
Lemma exn_walk_lines_get_last (l1 l2 : list string) (line : string) :
  Forall (fun line => truthy line = true) (l1 ++ line :: l2) ->
  ~ In (Code.key_of line) (map Code.key_of l2) ->
  forall acc d, loop (l1 ++ line :: l2) acc = Some d ->
  dict_get (Code.key_of line) d = node line.
Proof.
  intros Hall Hlast.
  induction l1 as [|l0 l1 IH]; intros acc d H; simpl in H.
  - inversion Hall as [|? ? Ht Hrest]; subst.
    rewrite Ht in H.
    destruct (node line) as [v|] eqn:Hv; [|discriminate].
    rewrite (exn_walk_lines_get_other l2 Hrest _ _ H _ Hlast).
    now rewrite dict_get_set_same.
  - inversion Hall as [|? ? Ht Hrest]; subst.
    rewrite Ht in H.
    destruct (node l0) as [v|]; [|discriminate].
    exact (IH Hrest _ _ H).
Qed.

End CodeExnLoop.

(** Where every URL is accepted, the walker of [code.py] that knows of
    [urljoin] is the walker over the service. *)
Section CodeSentService.
Variable svc : service.

Lemma code_exn_request_sent (path : string) :
  CodeExn._make_request (sent svc) path = Code._make_request svc path.
Proof.
  unfold CodeExn._make_request, Code._make_request, sent.
  now destruct (svc path).
Qed.

Lemma code_exn_lines_sent (recx rec : string -> option pyval) (path : string) :
  (forall p, recx p = rec p) ->
  forall lines acc,
    CodeExn.walk_lines (sent svc) recx path lines acc
    = Code.walk_lines svc rec path lines acc.
Proof.
  intros Hrec. induction lines as [|line rest IH]; intros acc; simpl;
    [reflexivity|].
  destruct (PyStr.truthy line); [|apply IH].
  unfold CodeExn.line_value, Code.line_value.
  rewrite code_exn_request_sent, Hrec.
  destruct (PyStr.endswith PyStr.slash line).
  - destruct (rec _); [apply IH | reflexivity].
  - destruct (Code._make_request svc _); apply IH.
Qed.

Lemma code_exn_walk_sent (fuel : nat) :
  forall path,
    CodeExn._get_metadata_recursive (sent svc) fuel path
    = Code._get_metadata_recursive svc fuel path.
Proof.
  induction fuel as [|fuel IH]; intros path; simpl; [reflexivity|].
  rewrite code_exn_request_sent.
  destruct (Code._make_request svc path) as [content|e]; [|reflexivity].
  now rewrite (code_exn_lines_sent _ _ path IH).
Qed.

End CodeSentService.

Lemma query_child_returns_value (net : web) (limit : nat) (endpoint Y : string) :
  query_child_returns net limit endpoint Y ->
  exists v,
    QueryExn.item_value net (QueryExn._get_nested_metadata net limit) endpoint Y
    = Returned v.
Proof.
  unfold query_child_returns, QueryExn.item_value, QueryExn._make_request.
  destruct (net _) as [msg|[c|e]]; [intros [] | | intros _; now eexists].
  intros H. destruct (Query.is_subdirectory (Some c)); [now apply H | now eexists].
Qed.

(** C2, as stated, fails for [aws_metadata_query.py]: the child
    [placement] is listed, its request under [placement] finds a
    listing, and its request under [placement/] fails; what is stored
    under the key is the empty dictionary, not an error marker. *)
Lemma child_failure_query_counterexample :
  svc_flaky_dir "" = Body ("placement/" ++ PyStr.nl)
  /\ In "placement" (Query._parse_directory ("placement/" ++ PyStr.nl))
  /\ svc_flaky_dir "placement/" = RequestException "Read timed out."
  /\ Query._get_nested_metadata svc_flaky_dir 2 ""
     = Some (VDict [("placement", VDict [])])
  /\ dict_get "placement" [("placement", VDict [])] <> Some VNone.
Proof.
  repeat split; try reflexivity.
  - vm_compute. left. reflexivity.
  - vm_compute. discriminate.
Qed.

(** C2 (amended): a child of a listing whose own request fails with a
    [RequestException] is stored as an error marker under its key, and
    every listed name is a key holding what its own request gave.

    In [aws_metadata_query.py] the request is the one the loop makes
    for the child's path; the marker is [None]; a sibling holds [None]
    where its request fails, the answer where it is a value, and the
    tree of its walk where it is a subdirectory; the walk returns its
    dictionary provided no sibling's URL is refused and the walks of the
    subdirectories return.  (A subdirectory whose request under its
    name followed by ['/'] fails is stored as the empty dictionary.)

    In [code.py] the marker is the text of the handler that caught the
    failure; a key holds the value of the last line stored under it:
    for a value line the answer, the error text of its failed request,
    or the message of the refused URL after ["Error: "]; for a directory
    line the result of its walk.  The walk returns its dictionary
    whatever the requests of the siblings give, the walks of the
    directory lines being taken to finish within the bound. *)
Theorem child_failure_is_contained :
  (forall (net : web) (limit : nat) (endpoint content X e : string),
      net endpoint = Sent (Body content) ->
      Query.is_listing content = true ->
      In X (Query._parse_directory content) ->
      net (PyStr.rstrip PyStr.slash (Query.item_endpoint_of endpoint X))
      = Sent (RequestException e) ->
      (forall Y, In Y (Query._parse_directory content) ->
         query_child_returns net limit endpoint Y) ->
      exists d : dict,
        QueryExn._get_nested_metadata net (S limit) endpoint = Returned (VDict d)
        /\ dict_get X d = Some VNone
        /\ forall Y, In Y (Query._parse_directory content) ->
             (forall e',
                net (PyStr.rstrip PyStr.slash (Query.item_endpoint_of endpoint Y))
                = Sent (RequestException e') ->
                dict_get Y d = Some VNone)
             /\ (forall c,
                net (PyStr.rstrip PyStr.slash (Query.item_endpoint_of endpoint Y))
                = Sent (Body c) ->
                Query.is_subdirectory (Some c) = false ->
                dict_get Y d = Some (VStr c))
             /\ (forall c,
                net (PyStr.rstrip PyStr.slash (Query.item_endpoint_of endpoint Y))
                = Sent (Body c) ->
                Query.is_subdirectory (Some c) = true ->
                exists v,
                  QueryExn._get_nested_metadata net limit
                    (Query.item_endpoint_of endpoint Y) = Returned v
                  /\ dict_get Y d = Some v))
  /\ (forall (net : web) (fuel : nat) (path content : string)
        (before after : list string) (X e : string),
      net path = Sent (Body content) ->
      filter PyStr.truthy (PyStr.split PyStr.LF (PyStr.strip content))
      = (before ++ X :: after)%list ->
      ~ In (Code.key_of X) (map Code.key_of after) ->
      net (Code.item_path_of path X) = Sent (RequestException e) ->
      (forall Y, In Y (before ++ X :: after)%list ->
         PyStr.endswith PyStr.slash Y = true ->
         exists v,
           CodeExn._get_metadata_recursive net fuel (Code.item_path_of path Y)
           = Some v) ->
      exists d : dict,
        CodeExn._get_metadata_recursive net (S fuel) path = Some (VDict d)
        /\ dict_get (Code.key_of X) d = Some (VStr (error_text path X e))
        /\ (forall Y, In Y (before ++ X :: after)%list ->
              In (Code.key_of Y) (keys d))
        /\ forall (b a : list string) (Y : string),
             (before ++ X :: after)%list = (b ++ Y :: a)%list ->
             ~ In (Code.key_of Y) (map Code.key_of a) ->
             (PyStr.endswith PyStr.slash Y = false ->
              (forall c,
                 net (Code.item_path_of path Y) = Sent (Body c) ->
                 dict_get (Code.key_of Y) d = Some (VStr c))
              /\ (forall e',
                    net (Code.item_path_of path Y) = Sent (RequestException e') ->
                    dict_get (Code.key_of Y) d
                    = Some (VStr (error_text path Y e')))
              /\ (forall msg,
                    net (Code.item_path_of path Y) = Refused msg ->
                    dict_get (Code.key_of Y) d
                    = Some (VStr ("Error: " ++ msg))))
             /\ (PyStr.endswith PyStr.slash Y = true ->
                 exists v,
                   CodeExn._get_metadata_recursive net fuel
                     (Code.item_path_of path Y) = Some v
                   /\ dict_get (Code.key_of Y) d = Some v)).
Proof.
  split.
  - intros net limit endpoint content X e Hnet Hlist HX Hfail Hret.
    destruct (exn_walk_items_returns net
                (QueryExn._get_nested_metadata net limit) endpoint
                (Query._parse_directory content)
                (fun Y HY => query_child_returns_value _ _ _ _ (Hret Y HY)) [])
      as [d Hd].
    exists d. split; [|split].
    + simpl. unfold QueryExn._make_request at 1. rewrite Hnet, Hlist, Hd.
      reflexivity.
    + destruct (exn_walk_items_get_item _ _ _ _ _ _ Hd X HX) as [v [Hv ->]].
      unfold QueryExn.item_value, QueryExn._make_request in Hv.
      rewrite Hfail in Hv. simpl in Hv. congruence.
    + intros Y HY.
      destruct (exn_walk_items_get_item _ _ _ _ _ _ Hd Y HY) as [v [Hv ->]].
      unfold QueryExn.item_value, QueryExn._make_request in Hv.
      split; [|split].
      * intros e' He'. rewrite He' in Hv. simpl in Hv. congruence.
      * intros c Hc Hsub. rewrite Hc, Hsub in Hv. simpl in Hv. congruence.
      * intros c Hc Hsub. rewrite Hc, Hsub in Hv. now exists v.
  - intros net fuel path content before after X e Hnet Hlines Hlast Hfail Hret.
    pose proof (filter_truthy_all (PyStr.split PyStr.LF (PyStr.strip content)))
      as Hall.
    rewrite Hlines in Hall.
    assert (Hfin : forall Y, In Y (before ++ X :: after)%list ->
              CodeExn.line_value net (CodeExn._get_metadata_recursive net fuel)
                path Y <> None).
    { intros Y HY. unfold CodeExn.line_value.
      destruct (PyStr.endswith PyStr.slash Y) eqn:Hs.
      - destruct (Hret Y HY Hs) as [v ->]. discriminate.
      - destruct (CodeExn._make_request net _); discriminate. }
    destruct (exn_walk_lines_total net _ path _ Hfin []) as [d Hd].
    assert (Hlastline : forall (b a : list string) (Y : string),
              (before ++ X :: after)%list = (b ++ Y :: a)%list ->
              ~ In (Code.key_of Y) (map Code.key_of a) ->
              dict_get (Code.key_of Y) d
              = CodeExn.line_value net (CodeExn._get_metadata_recursive net fuel)
                  path Y).
    { intros b a Y Heq HY. rewrite Heq in Hall, Hd.
      exact (exn_walk_lines_get_last _ _ _ _ _ _ Hall HY _ _ Hd). }
    exists d. split; [|split; [|split]].
    + simpl. unfold CodeExn._make_request at 1. rewrite Hnet.
      rewrite exn_walk_lines_filter, Hlines, Hd. reflexivity.
    + rewrite (Hlastline before after X eq_refl Hlast).
      assert (HX : In X (before ++ X :: after)%list)
        by (apply in_or_app; right; now left).
      unfold CodeExn.line_value, error_text.
      destruct (PyStr.endswith PyStr.slash X) eqn:Hs.
      * destruct (Hret X HX Hs) as [v Hv].
        destruct fuel as [|fuel]; [discriminate|].
        simpl. unfold CodeExn._make_request. rewrite Hfail. reflexivity.
      * unfold CodeExn._make_request. rewrite Hfail. reflexivity.
    + intros Y HY.
      apply (exn_walk_lines_keys _ _ _ _ Hall _ _ Hd). right. now apply in_map.
    + intros b a Y Heq HY. rewrite (Hlastline b a Y Heq HY).
      assert (HYin : In Y (before ++ X :: after)%list)
        by (rewrite Heq; apply in_or_app; right; now left).
      unfold CodeExn.line_value, error_text, CodeExn._make_request.
      split; intros Hs; rewrite Hs.
      * split; [|split].
        -- intros c Hc. now rewrite Hc.
        -- intros e' He'. now rewrite He'.
        -- intros msg Hm. now rewrite Hm.
      * destruct (Hret Y HYin Hs) as [v Hv]. exists v. split; [exact Hv|].
        now rewrite Hv.
Qed.

Lemma child_failure_is_contained_witness :
  (exists d : dict,
      QueryExn._get_nested_metadata (sent svc_timeout) 2 "" = Returned (VDict d)
      /\ dict_get "ami-id" d = Some VNone
      /\ dict_get "instance-id" d = Some (VStr "i-0123")
      /\ dict_get "placement" d
         = Some (VDict [("availability-zone", VStr "us-east-1a")]))
  /\ (exists d : dict,
      CodeExn._get_metadata_recursive net_refusing 2 "" = Some (VDict d)
      /\ dict_get "ami-id" d
         = Some (VStr "Error: Failed to retrieve metadata from ami-id: Read timed out.")
      /\ dict_get "instance-id" d = Some (VStr "i-0123")
      /\ dict_get "//[" d = Some (VStr "Error: Invalid IPv6 URL")
      /\ dict_get "placement" d
         = Some (VDict [("availability-zone", VStr "us-east-1a")])).
Proof.
  split.
  - destruct (proj1 child_failure_is_contained (sent svc_timeout) 1 ""
                root_listing "ami-id" "Read timed out.")
      as [d [Hwalk [Hx Hsib]]].
    + reflexivity.
    + reflexivity.
    + vm_compute. right. left. reflexivity.
    + reflexivity.
    + intros Y HY. each_member HY; vm_compute;
        first [exact I | intros _; eexists; reflexivity].
    + exists d. split; [exact Hwalk|]. split; [exact Hx|]. split.
      * apply (proj1 (proj2 (Hsib "instance-id"
                 ltac:(vm_compute; left; reflexivity))) "i-0123");
          reflexivity.
      * destruct (proj2 (proj2 (Hsib "placement"
                    ltac:(vm_compute; right; right; left; reflexivity)))
                    ("availability-zone" ++ PyStr.nl) eq_refl eq_refl)
          as [v [Hv ->]].
        vm_compute in Hv. congruence.
  - destruct (proj2 child_failure_is_contained net_refusing 1 ""
                (root_listing ++ "//[" ++ PyStr.nl)
                ["instance-id"] ["placement/"; "//["] "ami-id" "Read timed out.")
      as [d [Hwalk [Hx [_ Hsib]]]].
    + reflexivity.
    + reflexivity.
    + vm_compute. intros [H|[H|[]]]; discriminate.
    + reflexivity.
    + intros Y HY Hs. each_member HY; vm_compute in Hs; try discriminate.
      eexists. reflexivity.
    + exists d. split; [exact Hwalk|]. split; [exact Hx|]. split; [|split].
      * apply (proj1 (proj1 (Hsib [] ["ami-id"; "placement/"; "//["]
                 "instance-id" eq_refl
                 ltac:(vm_compute; intros [H|[H|[H|[]]]]; discriminate))
                 eq_refl) "i-0123").
        reflexivity.
      * apply (proj2 (proj2 (proj1 (Hsib ["instance-id"; "ami-id"; "placement/"] []
                 "//[" eq_refl ltac:(intros [])) eq_refl)) "Invalid IPv6 URL").
        reflexivity.
      * destruct (proj2 (Hsib ["instance-id"; "ami-id"] ["//["] "placement/"
                    eq_refl
                    ltac:(vm_compute; intros [H|[]]; discriminate)) eq_refl)
          as [v [Hv Hget]].
        vm_compute in Hv. change (Code.key_of "placement/") with "placement" in Hget.
        rewrite Hget. congruence.
Defined.

(** ** The keys of a listing (C4) *)




(** ** The key enumerator (C10, C7) *)

Lemma collect_value_dict (d : dict) (full_key : string) :
  Query.collect_value (VDict d) full_key = Query.collect_keys d full_key.
Proof.
  simpl. induction d as [|[k v] d IH]; simpl; [reflexivity|].
  now rewrite IH.
Qed.

Lemma collect_value_items_dict (d : dict) (full_key : string) :
  collect_value_items (VDict d) full_key = collect_items d full_key.
Proof.
  simpl. induction d as [|[k v] d IH]; simpl; [reflexivity|].
  now rewrite IH.
Qed.

Lemma collect_value_leaf (v : pyval) (full_key : string) :
  is_dict v = false -> Query.collect_value v full_key = [full_key].
Proof. destruct v; simpl; congruence. Qed.

Lemma collect_value_items_leaf (v : pyval) (full_key : string) :
  is_dict v = false -> collect_value_items v full_key = [(full_key, v)].
Proof. destruct v; simpl; congruence. Qed.

(** The items are the keys, each with its value. *)
Lemma collect_value_items_keys (v : pyval) :
  forall full_key,
    map fst (collect_value_items v full_key) = Query.collect_value v full_key.
Proof.
  induction v as [| s | d IH] using pyval_nested_ind; intros full_key;
    try reflexivity.
  rewrite collect_value_items_dict, collect_value_dict.
  induction IH as [|[k v] d Hv _ IHd]; simpl; [reflexivity|].
  rewrite map_app, IHd. simpl in Hv. now rewrite Hv.
Qed.

Lemma collect_items_keys (d : dict) (prefix : string) :
  map fst (collect_items d prefix) = Query.collect_keys d prefix.
Proof.
  rewrite <- collect_value_items_dict, <- collect_value_dict.
  apply collect_value_items_keys.
Qed.

Lemma collect_keys_in (d : dict) (prefix k p : string) (v : pyval) :
  In (k, v) d ->
  In p (Query.collect_value v (Query.full_key_of prefix k)) ->
  In p (Query.collect_keys d prefix).
Proof.
  induction d as [|[k0 v0] d IH]; simpl; [tauto|].
  intros [Heq|Hin] Hp; apply in_or_app.
  - inversion Heq; subst. now left.
  - right. now apply IH.
Qed.

Lemma collect_items_in_inv (d : dict) (prefix p : string) (x : pyval) :
  In (p, x) (collect_items d prefix) ->
  exists k v, In (k, v) d
    /\ In (p, x) (collect_value_items v (Query.full_key_of prefix k)).
Proof.
  induction d as [|[k0 v0] d IH]; simpl; [tauto|].
  intros H. apply in_app_or in H as [H|H].
  - exists k0, v0. split; [now left | exact H].
  - destruct (IH H) as [k [v [Hin Hp]]]. exists k, v. split; [now right | exact Hp].
Qed.

(** Every node that is no dictionary has its key in the enumeration. *)
Lemma node_at_collected (d : dict) (ks : list string) (v : pyval) :
  node_at d ks v ->
  is_dict v = false ->
  forall prefix, In (path_of prefix ks) (Query.collect_keys d prefix).
Proof.
  induction 1 as [d k v Hin | d d' k ks v Hin _ IH]; intros Hleaf prefix.
  - apply (collect_keys_in d prefix k _ v Hin).
    rewrite (collect_value_leaf _ _ Hleaf). now left.
  - apply (collect_keys_in d prefix k _ (VDict d') Hin).
    rewrite collect_value_dict. exact (IH Hleaf _).
Qed.

(** Every enumerated key stands for a node that is no dictionary. *)
Lemma collected_node_at (v : pyval) :
  forall d, v = VDict d ->
  forall prefix p x, In (p, x) (collect_items d prefix) ->
  exists ks, node_at d ks x /\ is_dict x = false /\ p = path_of prefix ks.
Proof.
  induction v as [| s | d0 IH] using pyval_nested_ind; intros d Hd;
    try discriminate.
  inversion Hd; subst d0. clear Hd.
  intros prefix p x Hp.
  destruct (collect_items_in_inv _ _ _ _ Hp) as [k [v [Hin Hv]]].
  rewrite Forall_forall in IH. specialize (IH (k, v) Hin). simpl in IH.
  destruct v as [| s | d'].
  - destruct Hv as [Hv|[]]. inversion Hv; subst.
    exists [k]. split; [now constructor | split; reflexivity].
  - destruct Hv as [Hv|[]]. inversion Hv; subst.
    exists [k]. split; [now constructor | split; reflexivity].
  - rewrite collect_value_items_dict in Hv.
    destruct (IH d' eq_refl _ _ _ Hv) as [ks [Hn [Hleaf ->]]].
    exists (k :: ks). split; [|split; [exact Hleaf | reflexivity]].
    now apply node_below with d'.
Qed.

(** C10: the enumerator emits the key of every node of the tree that is
    no dictionary, and of no other; a child whose request failed is
    stored as [None] and is such a node, so its key is emitted and the
    lookup of an emitted key can fail. *)
Theorem enumerate_keeps_error_nodes :
  (forall (d : dict) (prefix : string) (ks : list string) (v : pyval),
      node_at d ks v -> is_dict v = false ->
      In (path_of prefix ks) (Query.collect_keys d prefix))
  /\ (forall (d : dict) (prefix p : string),
      In p (Query.collect_keys d prefix) ->
      exists ks v, node_at d ks v /\ is_dict v = false /\ p = path_of prefix ks)
  /\ (forall (svc : service) (fuel : nat) (d : dict) (ks : list string),
      Query.get_all_metadata svc fuel = Some (VDict d) ->
      node_at d ks VNone ->
      exists emitted,
        Query.list_available_keys svc fuel = Some (Query.Keys emitted)
        /\ In (path_of "" ks) emitted)
  /\ (Query.get_all_metadata svc_timeout 2
      = Some (VDict [("instance-id", VStr "i-0123"); ("ami-id", VNone);
                     ("placement", VDict [("availability-zone", VStr "us-east-1a")])])
      /\ Query.list_available_keys svc_timeout 2
         = Some (Query.Keys ["instance-id"; "ami-id"; "placement/availability-zone"])
      /\ Query.get_metadata_key svc_timeout "ami-id" = None).
Proof.
  split; [|split; [|split]].
  - intros d prefix ks v Hn Hleaf. exact (node_at_collected d ks v Hn Hleaf prefix).
  - intros d prefix p Hp.
    rewrite <- collect_items_keys in Hp.
    apply in_map_iff in Hp as [[p' x] [Hfst Hin]]. simpl in Hfst. subst p'.
    destruct (collected_node_at (VDict d) d eq_refl _ _ _ Hin) as [ks [H1 [H2 H3]]].
    now exists ks, x.
  - intros svc fuel d ks Hwalk Hn.
    exists (Query.collect_keys d ""). split.
    + unfold Query.list_available_keys. now rewrite Hwalk.
    + exact (node_at_collected d ks VNone Hn eq_refl "").
  - repeat split; reflexivity.
Qed.

Lemma enumerate_keeps_error_nodes_witness :
  In (path_of "" ["ami-id"])
     (Query.collect_keys
        [("instance-id", VStr "i-0123"); ("ami-id", VNone);
         ("placement", VDict [("availability-zone", VStr "us-east-1a")])] "")
  /\ (exists emitted,
        Query.list_available_keys svc_timeout 2 = Some (Query.Keys emitted)
        /\ In (path_of "" ["ami-id"]) emitted).
Proof.
  split.
  - apply (proj1 enumerate_keeps_error_nodes _ "" ["ami-id"] VNone).
    + apply node_here. simpl. right. left. reflexivity.
    + reflexivity.
  - apply (proj1 (proj2 (proj2 enumerate_keeps_error_nodes)) svc_timeout 2
             [("instance-id", VStr "i-0123"); ("ami-id", VNone);
              ("placement", VDict [("availability-zone", VStr "us-east-1a")])]).
    + reflexivity.
    + apply node_here. simpl. right. left. reflexivity.
Defined.

(** *** Looking up the enumerated keys *)

Section PathsAndKeys.
Import PyStr.

(** The request the loop makes for a name that is not empty and does
    not end with the separator is for the endpoint followed by the
    name. *)
Lemma probe_path (endpoint k : string) :
  k <> "" -> endswith slash k = false ->
  rstrip slash (Query.item_endpoint_of endpoint k) = endpoint ++ k.
Proof.
  intros Hne Hs. rewrite item_endpoint_of_app.
  assert (Hk : rstrip slash (k ++ "/") = k)
    by (rewrite rstrip_app_slash; now apply rstrip_id).
  rewrite rstrip_app_keep; rewrite Hk; [reflexivity | exact Hne].
Qed.

Lemma linked_full_key (endpoint prefix k : string) :
  linked endpoint prefix -> endpoint ++ k = Query.full_key_of prefix k.
Proof.
  intros [[-> ->]|[Hne ->]]; [reflexivity|].
  unfold Query.full_key_of. destruct prefix; [congruence|].
  simpl. now rewrite string_app_assoc.
Qed.

Lemma linked_step (endpoint prefix k : string) :
  linked endpoint prefix -> k <> "" ->
  linked (Query.item_endpoint_of endpoint k) (Query.full_key_of prefix k).
Proof.
  intros Hl Hk. right. split.
  - rewrite <- (linked_full_key _ _ k Hl).
    destruct endpoint; [exact Hk | discriminate].
  - rewrite item_endpoint_of_app, <- (linked_full_key _ _ k Hl).
    now rewrite string_app_assoc.
Qed.

End PathsAndKeys.

Section RoundTrip.
Import PyStr.
Variable svc : service.
Hypothesis dirs : directories_list svc.

(** A walk that returns no dictionary returns the answer of its path,
    which is no listing. *)
Lemma query_walk_not_dict (fuel : nat) (endpoint : string) (v : pyval) :
  Query._get_nested_metadata svc fuel endpoint = Some v ->
  is_dict v = false ->
  exists content, svc endpoint = Body content
    /\ Query.is_listing content = false /\ v = VStr content.
Proof.
  destruct fuel as [|fuel]; simpl; [discriminate|].
  unfold Query._make_request. destruct (svc endpoint) as [content|e].
  - destruct (Query.is_listing content) eqn:Hl.
    + destruct (Query.walk_items _ _ _ _ _); simpl; intros H Hleaf;
        inversion H; subst; discriminate.
    + intros H _. inversion H. now exists content.
  - intros H Hleaf. inversion H; subst. discriminate.
Qed.

Lemma walk_nodes_round_trip (fuel : nat) :
  forall endpoint prefix d,
    linked endpoint prefix ->
    Query._get_nested_metadata svc fuel endpoint = Some (VDict d) ->
    forall ks v, node_at d ks v -> is_dict v = false -> ~ In "" ks ->
      Query.of_optional (Query._make_request svc (path_of prefix ks)) = v.
Proof.
  induction fuel as [|fuel IH]; intros endpoint prefix d Hlink; simpl;
    [discriminate|].
  destruct (Query._make_request svc endpoint) as [content|].
  - destruct (Query.is_listing content); [|discriminate].
    destruct (Query.walk_items _ _ _ _ _) as [d0|] eqn:Hd; simpl;
      [|discriminate].
    intros Heq. inversion Heq; subst d0. clear Heq.
    assert (Hitem : forall k v, In (k, v) d ->
              query_key_ok k
              /\ Query.item_value svc (Query._get_nested_metadata svc fuel)
                   endpoint k = Some v).
    { intros k v Hin.
      destruct (walk_items_in _ _ _ _ _ _ Hd _ _ Hin) as [[]|[Hk Hv]].
      split; [exact (parse_directory_keys_ok content k Hk) | exact Hv]. }
    intros ks v Hn Hleaf Hne.
    inversion Hn as [d1 k v1 Hin | d1 d' k ks' v1 Hin Hsub]; subst;
      destruct (Hitem _ _ Hin) as [[_ Hslash] Hv];
      assert (Hk : k <> "") by (intros ->; apply Hne; now left);
      unfold Query.item_value in Hv;
      rewrite (probe_path endpoint k Hk Hslash) in Hv;
      unfold path_of; simpl;
      rewrite <- (linked_full_key endpoint prefix k Hlink).
    + unfold Query._make_request in *.
      destruct (svc (endpoint ++ k)) as [c|e] eqn:Hc.
      * destruct (Query.is_subdirectory (Some c)) eqn:Hs.
        -- destruct (query_walk_not_dict _ _ _ Hv Hleaf) as [c' [Hc' [Hl _]]].
           rewrite item_endpoint_of_app, <- string_app_assoc in Hc'.
           rewrite (dirs _ _ _ Hc Hs Hc') in Hl. discriminate.
        -- now inversion Hv.
      * now inversion Hv.
    + destruct (Query.is_subdirectory _).
      * rewrite (linked_full_key endpoint prefix k Hlink).
        apply (IH _ _ _ (linked_step _ _ _ Hlink Hk) Hv _ _ Hsub Hleaf).
        intros Hin'. apply Hne. now right.
      * destruct (Query._make_request svc (endpoint ++ k)); discriminate.
  - intros Heq. inversion Heq; subst d.
    intros ks v Hn. inversion Hn as [? ? ? Hin|? ? ? ? ? Hin]; destruct Hin.
Qed.

End RoundTrip.

(** C7, as stated, fails: the enumerator emits the key [user_data] as
    the tree holds it, and the lookup asks for [user-data], which the
    service does not have. *)
Lemma round_trip_counterexample :
  Query.get_all_metadata svc_underscore 2
  = Some (VDict [("user_data", VStr "#!/bin/sh")])
  /\ Query.list_available_keys svc_underscore 2 = Some (Query.Keys ["user_data"])
  /\ Query.get_metadata_key svc_underscore "user_data" = None
  /\ Query.get_metadata_key svc_underscore "user_data" <> Some "#!/bin/sh".
Proof. repeat split; try reflexivity. vm_compute. discriminate. Qed.

(** The round trip also fails for a directory that answers with a single
    value under its name followed by ['/']: the tree holds that value
    under the key [d], and the lookup of [d] returns the listing. *)
Lemma round_trip_value_directory :
  Query.get_all_metadata svc_value_dir 2 = Some (VDict [("d", VStr "v")])
  /\ Query.list_available_keys svc_value_dir 2 = Some (Query.Keys ["d"])
  /\ Query.get_metadata_key svc_value_dir "d" = Some ("x" ++ PyStr.nl).
Proof. repeat split; reflexivity. Qed.

(** And it fails below an empty name, which the enumerated key does not
    show: the value fetched from [/x] is enumerated as [x]. *)
Lemma round_trip_empty_name :
  Query.get_all_metadata svc_empty_name 3
  = Some (VDict [("", VDict [("x", VStr "v")])])
  /\ Query.list_available_keys svc_empty_name 3 = Some (Query.Keys ["x"])
  /\ Query.get_metadata_key svc_empty_name "x" = None.
Proof. repeat split; reflexivity. Qed.

(** C7 (amended): take a service on which no path that answers with a
    non-empty listing answers with a single value when followed by
    ['/'], and a walk from the root that returns a dictionary.  The
    enumerator emits exactly the keys of the nodes that are no
    dictionaries; for every such node reached through names none of
    which is empty, whose key holds neither ['.'] nor ['_'], the lookup
    of the emitted key returns the string the tree holds there, and
    fails where the tree holds [None]. *)
Theorem enumerated_keys_round_trip :
  forall (svc : service) (fuel : nat) (d : dict),
    directories_list svc ->
    Query.get_all_metadata svc fuel = Some (VDict d) ->
    Query.list_available_keys svc fuel
    = Some (Query.Keys (Query.collect_keys d ""))
    /\ (forall p, In p (Query.collect_keys d "") ->
          exists ks v, node_at d ks v /\ is_dict v = false /\ p = path_of "" ks)
    /\ (forall ks v, node_at d ks v -> is_dict v = false -> ~ In "" ks ->
          In (path_of "" ks) (Query.collect_keys d "")
          /\ (PyStr.contains "." (path_of "" ks) = false ->
              PyStr.contains "_" (path_of "" ks) = false ->
              (forall s, v = VStr s ->
                 Query.get_metadata_key svc (path_of "" ks) = Some s)
              /\ (v = VNone ->
                  Query.get_metadata_key svc (path_of "" ks) = None))).
Proof.
  intros svc fuel d Hdirs Hwalk.
  split; [|split].
  - unfold Query.list_available_keys. now rewrite Hwalk.
  - intros p Hp. rewrite <- collect_items_keys in Hp.
    apply in_map_iff in Hp as [[p' x] [Hfst Hin]]. simpl in Hfst. subst p'.
    destruct (collected_node_at (VDict d) d eq_refl _ _ _ Hin) as [ks [H1 [H2 H3]]].
    now exists ks, x.
  - intros ks v Hn Hleaf Hne.
    split; [exact (node_at_collected d ks v Hn Hleaf "")|].
    intros Hdot Hus.
    pose proof (walk_nodes_round_trip svc Hdirs fuel "" "" d
                  (or_introl (conj eq_refl eq_refl)) Hwalk ks v Hn Hleaf Hne)
      as Hlook.
    unfold Query.get_metadata_key, Query.key_path_of.
    rewrite (replace_absent "." "/" _ Hdot), (replace_absent "_" "-" _ Hus).
    split.
    + intros s ->. destruct (Query._make_request svc _); simpl in Hlook;
        congruence.
    + intros ->. destruct (Query._make_request svc _); simpl in Hlook;
        congruence.
Qed.

Lemma scenario_directories_list : directories_list svc_scenario.
Proof.
  intros q c c' Hq Hsub Hq'.
  unfold svc_scenario in Hq. by_path Hq;
    inversion Hq; subst c; clear Hq;
    try (vm_compute in Hsub; discriminate);
    vm_compute in Hq'; inversion Hq'; reflexivity.
Qed.

Lemma enumerated_keys_round_trip_witness :
  Query.list_available_keys svc_scenario 2
  = Some (Query.Keys ["instance-id"; "ami-id"; "placement/availability-zone"])
  /\ In "placement/availability-zone"
       ["instance-id"; "ami-id"; "placement/availability-zone"]
  /\ Query.get_metadata_key svc_scenario "placement/availability-zone"
     = Some "us-east-1a".
Proof.
  destruct (enumerated_keys_round_trip svc_scenario 2
              [("instance-id", VStr "i-0123"); ("ami-id", VStr "ami-0456");
               ("placement", VDict [("availability-zone", VStr "us-east-1a")])]
              scenario_directories_list eq_refl)
    as [Hkeys [_ Hnodes]].
  destruct (Hnodes ["placement"; "availability-zone"] (VStr "us-east-1a"))
    as [Hin Hlook].
  - apply node_below with [("availability-zone", VStr "us-east-1a")].
    + simpl. right. right. left. reflexivity.
    + apply node_here. simpl. left. reflexivity.
  - reflexivity.
  - simpl. intros [H|[H|[]]]; discriminate.
  - split; [exact Hkeys|]. split; [exact Hin|].
    apply (proj1 (Hlook eq_refl eq_refl)). reflexivity.
Defined.

(** ** Two walks of an unchanged namespace (C8) *)

Section Unchanged.
Variable W : Type.
Variable get : world_service W.
Variable svc : service.

(** The namespace is unchanged: whatever the state of the world, a path
    is answered as [svc] answers it. *)
Hypothesis unchanged : forall p w, fst (get p w) = svc p.

Lemma query_request_io (endpoint : string) (w : W) :
  fst (QueryIO._make_request W get endpoint w) = Query._make_request svc endpoint.
Proof.
  unfold QueryIO._make_request, Query._make_request.
  rewrite <- (unchanged endpoint w).
  destruct (get endpoint w) as [[text|msg] w']; reflexivity.
Qed.

Lemma code_request_io (path : string) (w : W) :
  fst (CodeIO._make_request W get path w) = Code._make_request svc path.
Proof.
  unfold CodeIO._make_request, Code._make_request.
  rewrite <- (unchanged path w).
  destruct (get path w) as [[text|msg] w']; reflexivity.
Qed.

Lemma query_items_io (rec_io : string -> W -> option (pyval * W))
    (rec : string -> option pyval) (endpoint : string) :
  (forall e w, option_map fst (rec_io e w) = rec e) ->
  forall items acc w,
    option_map fst (QueryIO.walk_items W get rec_io endpoint items acc w)
    = Query.walk_items svc rec endpoint items acc.
Proof.
  intros Hrec. induction items as [|item rest IH]; intros acc w; simpl;
    [reflexivity|].
  unfold QueryIO.item_value, Query.item_value.
  pose proof (query_request_io
                (PyStr.rstrip PyStr.slash (Query.item_endpoint_of endpoint item)) w)
    as Hreq.
  destruct (QueryIO._make_request W get _ w) as [item_content w'].
  simpl in Hreq. rewrite <- Hreq.
  destruct (Query.is_subdirectory item_content).
  - rewrite <- (Hrec _ w').
    destruct (rec_io _ w') as [[v w'']|]; simpl; [apply IH | reflexivity].
  - apply IH.
Qed.

Lemma code_lines_io (rec_io : string -> W -> option (pyval * W))
    (rec : string -> option pyval) (path : string) :
  (forall e w, option_map fst (rec_io e w) = rec e) ->
  forall lines acc w,
    option_map fst (CodeIO.walk_lines W get rec_io path lines acc w)
    = Code.walk_lines svc rec path lines acc.
Proof.
  intros Hrec. induction lines as [|line rest IH]; intros acc w; simpl;
    [reflexivity|].
  destruct (PyStr.truthy line); [|apply IH].
  unfold CodeIO.line_value, Code.line_value.
  destruct (PyStr.endswith PyStr.slash line).
  - rewrite <- (Hrec _ w).
    destruct (rec_io _ w) as [[v w']|]; simpl; [apply IH | reflexivity].
  - pose proof (code_request_io (Code.item_path_of path line) w) as Hreq.
    destruct (CodeIO._make_request W get _ w) as [[value|e] w'];
      simpl in Hreq; rewrite <- Hreq; apply IH.
Qed.

(** With an unchanged namespace the walk over the world builds the tree
    of the walk over [svc]. *)
Lemma query_walk_io (fuel : nat) :
  forall endpoint w,
    option_map fst (QueryIO._get_nested_metadata W get fuel endpoint w)
    = Query._get_nested_metadata svc fuel endpoint.
Proof.
  induction fuel as [|fuel IH]; intros endpoint w; simpl; [reflexivity|].
  pose proof (query_request_io endpoint w) as Hreq.
  destruct (QueryIO._make_request W get endpoint w) as [[content|] w'];
    simpl in Hreq; rewrite <- Hreq; [|reflexivity].
  destruct (Query.is_listing content); [|reflexivity].
  rewrite <- (query_items_io _ _ endpoint IH _ [] w').
  destruct (QueryIO.walk_items _ _ _ _ _ _ _) as [[d w'']|]; reflexivity.
Qed.

Lemma code_walk_io (fuel : nat) :
  forall path w,
    option_map fst (CodeIO._get_metadata_recursive W get fuel path w)
    = Code._get_metadata_recursive svc fuel path.
Proof.
  induction fuel as [|fuel IH]; intros path w; simpl; [reflexivity|].
  pose proof (code_request_io path w) as Hreq.
  destruct (CodeIO._make_request W get path w) as [[content|e] w'];
    simpl in Hreq; rewrite <- Hreq; [|reflexivity].
  rewrite <- (code_lines_io _ _ path IH _ [] w').
  destruct (CodeIO.walk_lines _ _ _ _ _ _ _) as [[d w'']|]; reflexivity.
Qed.

End Unchanged.

Lemma option_map_fst_some {A B : Type} (o : option (A * B)) (a : A) :
  option_map fst o = Some a -> exists b, o = Some (a, b).
Proof.
  destruct o as [[a' b]|]; simpl; intros H; [|discriminate].
  inversion H; subst. now exists b.
Qed.

(** C8: when the answers of the service do not depend on the state of
    the world, a second walk of the same path, started in the world the
    first walk left behind, returns the same tree as the first; this
    holds for the walkers of both scripts. *)
Theorem walk_twice_same_tree :
  forall (W : Type) (get : world_service W) (svc : service),
    (forall p w, fst (get p w) = svc p) ->
    (forall fuel endpoint w0 t1 w1,
        QueryIO._get_nested_metadata W get fuel endpoint w0 = Some (t1, w1) ->
        exists w2,
          QueryIO._get_nested_metadata W get fuel endpoint w1 = Some (t1, w2))
    /\ (forall fuel path w0 t1 w1,
        CodeIO._get_metadata_recursive W get fuel path w0 = Some (t1, w1) ->
        exists w2,
          CodeIO._get_metadata_recursive W get fuel path w1 = Some (t1, w2)).
Proof.
  intros W get svc Hsame. split.
  - intros fuel endpoint w0 t1 w1 Hfirst.
    apply option_map_fst_some.
    rewrite (query_walk_io W get svc Hsame fuel endpoint w1).
    rewrite <- (query_walk_io W get svc Hsame fuel endpoint w0).
    now rewrite Hfirst.
  - intros fuel path w0 t1 w1 Hfirst.
    apply option_map_fst_some.
    rewrite (code_walk_io W get svc Hsame fuel path w1).
    rewrite <- (code_walk_io W get svc Hsame fuel path w0).
    now rewrite Hfirst.
Qed.

Lemma walk_twice_same_tree_witness :
  (exists w2,
      QueryIO._get_nested_metadata nat (counting svc_scenario) 2 "" 6
      = Some (VDict [("instance-id", VStr "i-0123"); ("ami-id", VStr "ami-0456");
                     ("placement",
                      VDict [("availability-zone", VStr "us-east-1a")])], w2))
  /\ (exists w2,
      CodeIO._get_metadata_recursive nat (counting svc_scenario) 2 "" 5
      = Some (VDict [("instance-id", VStr "i-0123"); ("ami-id", VStr "ami-0456");
                     ("placement",
                      VDict [("availability-zone", VStr "us-east-1a")])], w2)).
Proof.
  assert (Hsame : forall p (w : nat), fst (counting svc_scenario p w) = svc_scenario p)
    by reflexivity.
  destruct (walk_twice_same_tree nat (counting svc_scenario) svc_scenario Hsame)
    as [Hq Hc].
  split.
  - apply (Hq 2 "" 0). reflexivity.
  - apply (Hc 2 "" 0). reflexivity.
Defined.

(** ** Termination on a finite namespace without cycles (C9) *)

Section QueryTermination.
Variable svc : service.

Lemma query_items_mono (rec rec' : string -> option pyval) (endpoint : string) :
  (forall e v, rec e = Some v -> rec' e = Some v) ->
  forall items acc d,
    Query.walk_items svc rec endpoint items acc = Some d ->
    Query.walk_items svc rec' endpoint items acc = Some d.
Proof.
  intros Hrec. induction items as [|item rest IH]; intros acc d; simpl;
    [trivial|].
  destruct (Query.item_value svc rec endpoint item) as [v|] eqn:Hv;
    [|discriminate].
  assert (Hv' : Query.item_value svc rec' endpoint item = Some v).
  { unfold Query.item_value in *.
    destruct (Query.is_subdirectory _); [now apply Hrec | exact Hv]. }
  rewrite Hv'. apply IH.
Qed.

(** A walk that finished gives the same tree under any larger bound. *)
Lemma query_walk_mono (fuel : nat) :
  forall fuel' endpoint v,
    fuel <= fuel' ->
    Query._get_nested_metadata svc fuel endpoint = Some v ->
    Query._get_nested_metadata svc fuel' endpoint = Some v.
Proof.
  induction fuel as [|fuel IH]; intros fuel' endpoint v Hle; simpl;
    [discriminate|].
  destruct fuel' as [|fuel']; [lia|]. simpl.
  destruct (Query._make_request svc endpoint) as [content|]; [|trivial].
  destruct (Query.is_listing content); [|trivial].
  destruct (Query.walk_items svc (Query._get_nested_metadata svc fuel) _ _ _)
    as [d|] eqn:Hd; simpl; [|discriminate].
  intros Hv.
  rewrite (query_items_mono _ (Query._get_nested_metadata svc fuel') endpoint
             (fun e v => IH fuel' e v ltac:(lia)) _ _ _ Hd).
  exact Hv.
Qed.

Variable depth : string -> nat.
Hypothesis bounded : depth_bounded (query_descends svc) depth.

Lemma query_walk_enough (fuel : nat) :
  forall endpoint, depth endpoint < fuel ->
    exists v, Query._get_nested_metadata svc fuel endpoint = Some v.
Proof.
  induction fuel as [|fuel IH]; intros endpoint Hlt; [lia|]. simpl.
  destruct (svc endpoint) as [content|msg] eqn:Hsvc;
    unfold Query._make_request at 1; rewrite Hsvc; [|eauto].
  destruct (Query.is_listing content) eqn:Hlist; [|eauto].
  destruct (walk_items_total svc (Query._get_nested_metadata svc fuel) endpoint
              (Query._parse_directory content)) with (acc := @nil (string * pyval))
    as [d Hd].
  - intros item Hitem. unfold Query.item_value.
    destruct (Query.is_subdirectory _) eqn:Hsub; [|discriminate].
    assert (Hstep : depth (Query.item_endpoint_of endpoint item) < depth endpoint).
    { apply bounded. exists content, item. repeat split; assumption. }
    destruct (IH (Query.item_endpoint_of endpoint item)) as [v Hv]; [lia|].
    rewrite Hv. discriminate.
  - rewrite Hd. simpl. eauto.
Qed.

End QueryTermination.

Section CodeTermination.
Variable svc : service.

Lemma code_lines_mono (rec rec' : string -> option pyval) (path : string) :
  (forall e v, rec e = Some v -> rec' e = Some v) ->
  forall lines acc d,
    Code.walk_lines svc rec path lines acc = Some d ->
    Code.walk_lines svc rec' path lines acc = Some d.
Proof.
  intros Hrec. induction lines as [|line rest IH]; intros acc d; simpl;
    [trivial|].
  destruct (PyStr.truthy line); [|apply IH].
  destruct (Code.line_value svc rec path line) as [v|] eqn:Hv; [|discriminate].
  assert (Hv' : Code.line_value svc rec' path line = Some v).
  { unfold Code.line_value in *.
    destruct (PyStr.endswith PyStr.slash line); [now apply Hrec | exact Hv]. }
  rewrite Hv'. apply IH.
Qed.

Lemma code_walk_mono (fuel : nat) :
  forall fuel' path v,
    fuel <= fuel' ->
    Code._get_metadata_recursive svc fuel path = Some v ->
    Code._get_metadata_recursive svc fuel' path = Some v.
Proof.
  induction fuel as [|fuel IH]; intros fuel' path v Hle; simpl;
    [discriminate|].
  destruct fuel' as [|fuel']; [lia|]. simpl.
  destruct (Code._make_request svc path) as [content|e]; [|trivial].
  destruct (Code.walk_lines svc (Code._get_metadata_recursive svc fuel) _ _ _)
    as [d|] eqn:Hd; simpl; [|discriminate].
  intros Hv.
  rewrite (code_lines_mono _ (Code._get_metadata_recursive svc fuel') path
             (fun e v => IH fuel' e v ltac:(lia)) _ _ _ Hd).
  exact Hv.
Qed.

Variable depth : string -> nat.
Hypothesis bounded : depth_bounded (code_descends svc) depth.

Lemma code_lines_enough (rec : string -> option pyval) (path : string)
    (lines : list string) :
  (forall line, In line lines -> PyStr.truthy line = true ->
     PyStr.endswith PyStr.slash line = true ->
     rec (Code.item_path_of path line) <> None) ->
  forall acc, exists d, Code.walk_lines svc rec path lines acc = Some d.
Proof.
  induction lines as [|line rest IH]; intros Hrec acc; simpl; [eauto|].
  assert (Hrest : forall l, In l rest -> PyStr.truthy l = true ->
                    PyStr.endswith PyStr.slash l = true ->
                    rec (Code.item_path_of path l) <> None)
    by (intros l Hl; apply Hrec; now right).
  destruct (PyStr.truthy line) eqn:Ht; [|now apply IH].
  unfold Code.line_value.
  destruct (PyStr.endswith PyStr.slash line) eqn:Hs.
  - destruct (rec (Code.item_path_of path line)) as [v|] eqn:Hv.
    + now apply IH.
    + exfalso. exact (Hrec line (or_introl eq_refl) Ht Hs Hv).
  - destruct (Code._make_request svc _); now apply IH.
Qed.

Lemma code_walk_enough (fuel : nat) :
  forall path, depth path < fuel ->
    exists v, Code._get_metadata_recursive svc fuel path = Some v.
Proof.
  induction fuel as [|fuel IH]; intros path Hlt; [lia|]. simpl.
  destruct (svc path) as [content|msg] eqn:Hsvc;
    unfold Code._make_request at 1; rewrite Hsvc; [|eauto].
  destruct (code_lines_enough (Code._get_metadata_recursive svc fuel) path
              (PyStr.split PyStr.LF (PyStr.strip content)))
    with (acc := @nil (string * pyval)) as [d Hd].
  - intros line Hline Ht Hs.
    assert (Hstep : depth (Code.item_path_of path line) < depth path).
    { apply bounded. exists content, line. repeat split; assumption. }
    destruct (IH (Code.item_path_of path line)) as [v Hv]; [lia|].
    rewrite Hv. discriminate.
  - rewrite Hd. simpl. eauto.
Qed.

End CodeTermination.

(** The walkers keep no record of the paths they have seen: on a
    namespace in which every path lists a directory, no bound is enough. *)
Lemma query_walk_loops (fuel : nat) :
  forall endpoint, Query._get_nested_metadata svc_loop fuel endpoint = None.
Proof.
  induction fuel as [|fuel IH]; intros endpoint; [reflexivity|].
  simpl. unfold Query.item_value. simpl.
  now rewrite IH.
Qed.

Lemma code_walk_loops (fuel : nat) :
  forall path, Code._get_metadata_recursive svc_loop fuel path = None.
Proof.
  induction fuel as [|fuel IH]; intros path; [reflexivity|].
  simpl. unfold Code.line_value. simpl.
  now rewrite IH.
Qed.

(** C9: on a namespace that is finite and free of cycles, so that every
    path has a depth that each recursive call of the walker lowers, the
    walk of every path finishes; its recursion is no deeper than the
    depth of the path plus one, and any larger bound gives the same
    tree.  This holds for both scripts.  Neither walker detects cycles:
    on a namespace where every path lists a directory no bound is
    enough. *)
Theorem walk_terminates :
  (forall (svc : service) (depth : string -> nat),
      depth_bounded (query_descends svc) depth ->
      forall endpoint, exists v,
        Query._get_nested_metadata svc (S (depth endpoint)) endpoint = Some v
        /\ forall fuel, depth endpoint < fuel ->
             Query._get_nested_metadata svc fuel endpoint = Some v)
  /\ (forall (svc : service) (depth : string -> nat),
      depth_bounded (code_descends svc) depth ->
      forall path, exists v,
        Code._get_metadata_recursive svc (S (depth path)) path = Some v
        /\ forall fuel, depth path < fuel ->
             Code._get_metadata_recursive svc fuel path = Some v)
  /\ (forall fuel p,
        Query._get_nested_metadata svc_loop fuel p = None
        /\ Code._get_metadata_recursive svc_loop fuel p = None).
Proof.
  split; [|split].
  - intros svc depth Hb endpoint.
    destruct (query_walk_enough svc depth Hb (S (depth endpoint)) endpoint)
      as [v Hv]; [lia|].
    exists v. split; [exact Hv|].
    intros fuel Hlt. apply (query_walk_mono svc _ fuel endpoint v) in Hv;
      [exact Hv | lia].
  - intros svc depth Hb path.
    destruct (code_walk_enough svc depth Hb (S (depth path)) path)
      as [v Hv]; [lia|].
    exists v. split; [exact Hv|].
    intros fuel Hlt. apply (code_walk_mono svc _ fuel path v) in Hv;
      [exact Hv | lia].
  - intros fuel p. split; [apply query_walk_loops | apply code_walk_loops].
Qed.

Lemma scenario_query_bounded :
  depth_bounded (query_descends svc_scenario) scenario_depth.
Proof.
  intros p c [content [item [Hsvc [Hlist [Hitem [Hsub Hc]]]]]]. subst c.
  unfold svc_scenario in Hsvc. by_path Hsvc;
    inversion Hsvc; subst content; clear Hsvc;
    try (vm_compute in Hlist; discriminate);
    each_member Hitem; vm_compute in Hsub; try discriminate.
  vm_compute. lia.
Qed.

Lemma scenario_code_bounded :
  depth_bounded (code_descends svc_scenario) scenario_depth.
Proof.
  intros p c [content [line [Hsvc [Hline [Ht [Hs Hc]]]]]]. subst c.
  unfold svc_scenario in Hsvc. by_path Hsvc;
    inversion Hsvc; subst content; clear Hsvc;
    each_member Hline; vm_compute in Hs; try discriminate.
  vm_compute. lia.
Qed.

Lemma walk_terminates_witness :
  (exists v,
      Query._get_nested_metadata svc_scenario (S (scenario_depth "")) "" = Some v
      /\ forall fuel, scenario_depth "" < fuel ->
           Query._get_nested_metadata svc_scenario fuel "" = Some v)
  /\ (exists v,
      Code._get_metadata_recursive svc_scenario (S (scenario_depth "")) "" = Some v
      /\ forall fuel, scenario_depth "" < fuel ->
           Code._get_metadata_recursive svc_scenario fuel "" = Some v).
Proof.
  split.
  - exact (proj1 walk_terminates svc_scenario scenario_depth
             scenario_query_bounded "").
  - exact (proj1 (proj2 walk_terminates) svc_scenario scenario_depth
             scenario_code_bounded "").
Defined.

(** * Further properties of the two scripts *)

(** ** The keys of the tree *)

Lemma walk_lines_in (svc : service) (rec : string -> option pyval)
    (path : string) (lines : list string) :
  forall acc d, Code.walk_lines svc rec path lines acc = Some d ->
  forall k v, In (k, v) d ->
  In (k, v) acc
  \/ exists line, In line lines /\ PyStr.truthy line = true
       /\ Code.key_of line = k /\ Code.line_value svc rec path line = Some v.
Proof.
  induction lines as [|line rest IH]; intros acc d H k v Hin; simpl in H.
  - inversion H; subst. now left.
  - destruct (PyStr.truthy line) eqn:Ht.
    + destruct (Code.line_value svc rec path line) as [v0|] eqn:Hv;
        [|discriminate].
      destruct (IH _ _ H k v Hin) as [Hacc|[l [Hl Hrest]]].
      * destruct (in_dict_set _ _ _ _ _ Hacc) as [[-> ->]|Hold].
        -- right. exists line. repeat split; [now left | exact Ht | exact Hv].
        -- now left.
      * right. exists l. split; [now right | exact Hrest].
    + destruct (IH _ _ H k v Hin) as [Hacc|[l [Hl Hrest]]]; [now left|].
      right. exists l. split; [now right | exact Hrest].
Qed.

(** X1: every key of the tree [aws_metadata_query.py] builds, at every
    level, holds no newline and does not end with ['/']; every key of
    the tree [code.py] builds, at every level, holds no newline. *)
Theorem tree_keys_are_clean :
  (forall (svc : service) (fuel : nat) (endpoint : string) (d : dict),
      Query._get_nested_metadata svc fuel endpoint = Some (VDict d) ->
      forall ks v, node_at d ks v -> Forall query_key_ok ks)
  /\ (forall (svc : service) (fuel : nat) (path : string) (d : dict),
      Code._get_metadata_recursive svc fuel path = Some (VDict d) ->
      forall ks v, node_at d ks v ->
        Forall (fun k => PyStr.contains PyStr.LF k = false) ks).
Proof.
  split.
  - intros svc fuel. induction fuel as [|fuel IH]; intros endpoint d;
      simpl; [discriminate|].
    destruct (Query._make_request svc endpoint) as [content|].
    + destruct (Query.is_listing content); [|discriminate].
      destruct (Query.walk_items _ _ _ _ _) as [d0|] eqn:Hd; simpl;
        [|discriminate].
      intros Heq. inversion Heq; subst d0. clear Heq.
      assert (Hitem : forall k v, In (k, v) d ->
                In k (Query._parse_directory content)
                /\ Query.item_value svc (Query._get_nested_metadata svc fuel)
                     endpoint k = Some v).
      { intros k v Hin.
        destruct (walk_items_in _ _ _ _ _ _ Hd _ _ Hin) as [[]|H]. exact H. }
      intros ks v Hn. inversion Hn as [d1 k v1 Hin | d1 d' k ks' v1 Hin Hsub]; subst.
      * constructor; [|constructor].
        apply (parse_directory_keys_ok content). now apply (Hitem k v).
      * destruct (Hitem _ _ Hin) as [Hk Hv]. constructor.
        -- now apply (parse_directory_keys_ok content).
        -- unfold Query.item_value in Hv.
           destruct (Query.is_subdirectory _).
           ++ exact (IH _ _ Hv _ _ Hsub).
           ++ destruct (Query._make_request svc _); discriminate.
    + intros Heq. inversion Heq; subst d.
      intros ks v Hn. inversion Hn as [? ? ? Hin|? ? ? ? ? Hin]; destruct Hin.
  - intros svc fuel. induction fuel as [|fuel IH]; intros path d;
      simpl; [discriminate|].
    destruct (Code._make_request svc path) as [content|e]; [|discriminate].
    destruct (Code.walk_lines _ _ _ _ _) as [d0|] eqn:Hd; simpl;
      [|discriminate].
    intros Heq. inversion Heq; subst d0. clear Heq.
    assert (Hline : forall k v, In (k, v) d ->
              exists line, In line (PyStr.split PyStr.LF (PyStr.strip content))
                /\ Code.key_of line = k
                /\ Code.line_value svc (Code._get_metadata_recursive svc fuel)
                     path line = Some v).
    { intros k v Hin.
      destruct (walk_lines_in _ _ _ _ _ _ Hd _ _ Hin) as [[]|[l [H1 [_ [H2 H3]]]]].
      now exists l. }
    intros ks v Hn. inversion Hn as [d1 k v1 Hin | d1 d' k ks' v1 Hin Hsub]; subst.
    + destruct (Hline _ _ Hin) as [line [Hl [<- _]]].
      constructor; [|constructor]. exact (key_of_no_newline _ _ Hl).
    + destruct (Hline _ _ Hin) as [line [Hl [<- Hv]]]. constructor.
      * exact (key_of_no_newline _ _ Hl).
      * unfold Code.line_value in Hv.
        destruct (PyStr.endswith PyStr.slash line).
        -- exact (IH _ _ Hv _ _ Hsub).
        -- destruct (Code._make_request svc _); discriminate.
Qed.

Lemma tree_keys_are_clean_witness :
  Forall query_key_ok ["placement"; "availability-zone"]
  /\ Forall (fun k => PyStr.contains PyStr.LF k = false)
       ["placement"; "availability-zone"].
Proof.
  assert (Hn : node_at
                 [("instance-id", VStr "i-0123"); ("ami-id", VStr "ami-0456");
                  ("placement", VDict [("availability-zone", VStr "us-east-1a")])]
                 ["placement"; "availability-zone"] (VStr "us-east-1a")).
  { apply node_below with [("availability-zone", VStr "us-east-1a")].
    - simpl. right. right. left. reflexivity.
    - apply node_here. simpl. left. reflexivity. }
  split.
  - apply (proj1 tree_keys_are_clean svc_scenario 2 "" _ eq_refl _ _ Hn).
  - apply (proj2 tree_keys_are_clean svc_scenario 2 "" _ eq_refl _ _ Hn).
Defined.

(** ** The order of the keys *)

Lemma keys_dict_set_order (k : string) (v : pyval) (d : dict) :
  keys (dict_set k v d)
  = if existsb (String.eqb k) (keys d) then keys d else (keys d ++ [k])%list.
Proof.
  unfold keys. induction d as [|[k' v'] d IH]; simpl; [reflexivity|].
  rewrite (String.eqb_sym k k').
  destruct (String.eqb k' k); simpl; [reflexivity|].
  rewrite IH. now destruct (existsb (String.eqb k) (map fst d)).
Qed.

Lemma unseen_snoc (seen : list string) (k : string) (l : list string) :
  unseen (seen ++ [k]) l
  = unseen seen (filter (fun y => negb (String.eqb k y)) l).
Proof.
  unfold unseen. induction l as [|y l IH]; simpl; [reflexivity|].
  rewrite existsb_app. simpl. rewrite orb_false_r, (String.eqb_sym y k).
  destruct (String.eqb k y); simpl.
  - rewrite orb_true_r. simpl. exact IH.
  - rewrite orb_false_r.
    destruct (existsb (String.eqb y) seen); simpl; now rewrite IH.
Qed.

Lemma unseen_seen (seen : list string) (k : string) (l : list string) :
  existsb (String.eqb k) seen = true ->
  unseen seen (filter (fun y => negb (String.eqb k y)) l) = unseen seen l.
Proof.
  intros Hk. unfold unseen. induction l as [|y l IH]; simpl; [reflexivity|].
  destruct (String.eqb_spec k y) as [<-|Hne]; simpl.
  - rewrite Hk. simpl. exact IH.
  - now rewrite IH.
Qed.

Lemma unseen_cons (seen : list string) (k : string) (l : list string) :
  unseen seen (k :: l)
  = if existsb (String.eqb k) seen then unseen seen l else k :: unseen seen l.
Proof.
  unfold unseen. simpl. now destruct (existsb (String.eqb k) seen).
Qed.

(** One insertion, as the next name of the listing sees it. *)
Lemma keys_order_step (k : string) (v : pyval) (acc : dict) (l : list string) :
  (keys (dict_set k v acc) ++ unseen (keys (dict_set k v acc)) (first_occurrences l))%list
  = (keys acc ++ unseen (keys acc) (first_occurrences (k :: l)))%list.
Proof.
  rewrite keys_dict_set_order.
  change (first_occurrences (k :: l))
    with (k :: filter (fun y => negb (String.eqb k y)) (first_occurrences l)).
  rewrite unseen_cons.
  destruct (existsb (String.eqb k) (keys acc)) eqn:Hk.
  - now rewrite unseen_seen.
  - rewrite unseen_snoc, <- app_assoc. reflexivity.
Qed.

Lemma unseen_nil (l : list string) : unseen [] l = l.
Proof.
  induction l as [|y l IH]; [reflexivity|].
  change (unseen [] (y :: l)) with (y :: unseen [] l). now rewrite IH.
Qed.

Lemma walk_items_order (svc : service) (rec : string -> option pyval)
    (endpoint : string) (items : list string) :
  forall acc d, Query.walk_items svc rec endpoint items acc = Some d ->
  keys d = (keys acc ++ unseen (keys acc) (first_occurrences items))%list.
Proof.
  induction items as [|item rest IH]; intros acc d H; simpl in H.
  - inversion H; subst. simpl. now rewrite app_nil_r.
  - destruct (Query.item_value svc rec endpoint item) as [v|]; [|discriminate].
    rewrite (IH _ _ H). apply keys_order_step.
Qed.

Lemma walk_lines_order (svc : service) (rec : string -> option pyval)
    (path : string) (lines : list string) :
  Forall (fun line => PyStr.truthy line = true) lines ->
  forall acc d, Code.walk_lines svc rec path lines acc = Some d ->
  keys d
  = (keys acc ++ unseen (keys acc) (first_occurrences (map Code.key_of lines)))%list.
Proof.
  induction 1 as [|line rest Ht _ IH]; intros acc d H; simpl in H.
  - inversion H; subst. simpl. now rewrite app_nil_r.
  - rewrite Ht in H.
    destruct (Code.line_value svc rec path line) as [v|]; [|discriminate].
    rewrite (IH _ _ H). apply keys_order_step.
Qed.

(** X2: the keys of the dictionary a walk returns stand in the order of
    the listing, each name at the place of its first occurrence: for
    [aws_metadata_query.py] the names [_parse_directory] gives, for
    [code.py] the non-empty lines with their trailing ['/'] cut. *)
Theorem keys_follow_listing_order :
  (forall (svc : service) (fuel : nat) (endpoint content : string) (d : dict),
      svc endpoint = Body content ->
      Query.is_listing content = true ->
      Query._get_nested_metadata svc fuel endpoint = Some (VDict d) ->
      keys d = first_occurrences (Query._parse_directory content))
  /\ (forall (svc : service) (fuel : nat) (path content : string) (d : dict),
      svc path = Body content ->
      Code._get_metadata_recursive svc fuel path = Some (VDict d) ->
      keys d
      = first_occurrences
          (map Code.key_of
             (filter PyStr.truthy (PyStr.split PyStr.LF (PyStr.strip content))))).
Proof.
  split.
  - intros svc [|fuel] endpoint content d Hsvc Hlist; simpl; [discriminate|].
    unfold Query._make_request at 1. rewrite Hsvc, Hlist.
    destruct (Query.walk_items _ _ _ _ _) as [d0|] eqn:Hd; simpl; [|discriminate].
    intros Heq. inversion Heq; subst d0.
    rewrite (walk_items_order _ _ _ _ _ _ Hd). simpl. apply unseen_nil.
  - intros svc [|fuel] path content d Hsvc; simpl; [discriminate|].
    unfold Code._make_request at 1. rewrite Hsvc.
    rewrite walk_lines_filter.
    destruct (Code.walk_lines _ _ _ _ _) as [d0|] eqn:Hd; simpl; [|discriminate].
    intros Heq. inversion Heq; subst d0.
    rewrite (walk_lines_order _ _ _ _ (filter_truthy_all _) _ _ Hd). simpl.
    apply unseen_nil.
Qed.

Lemma keys_follow_listing_order_witness :
  keys [("instance-id", VStr "i-0123"); ("ami-id", VNone);
        ("placement", VDict [("availability-zone", VStr "us-east-1a")])]
  = first_occurrences (Query._parse_directory root_listing)
  /\ keys [("instance-id", VStr "i-0123");
           ("ami-id",
            VStr "Error: Failed to retrieve metadata from ami-id: Read timed out.");
           ("placement", VDict [("availability-zone", VStr "us-east-1a")])]
     = first_occurrences
         (map Code.key_of
            (filter PyStr.truthy
               (PyStr.split PyStr.LF (PyStr.strip root_listing)))).
Proof.
  split.
  - apply (proj1 keys_follow_listing_order svc_timeout 2 "" root_listing);
      reflexivity.
  - apply (proj2 keys_follow_listing_order svc_timeout 2 "" root_listing);
      reflexivity.
Defined.

(** ** A directory whose own listing fails *)



(** ** The exceptions [aws_metadata_query.py] lets through *)

Section SentService.
Variable svc : service.

Lemma exn_request_sent (endpoint : string) :
  QueryExn._make_request (sent svc) endpoint
  = Returned (Query._make_request svc endpoint).
Proof.
  unfold QueryExn._make_request, Query._make_request, sent.
  now destruct (svc endpoint).
Qed.

Lemma exn_items_sent (recx : string -> outcome pyval)
    (rec : string -> option pyval) (endpoint : string) :
  (forall e, recx e = or_recursion_error (rec e)) ->
  forall items acc,
    QueryExn.walk_items (sent svc) recx endpoint items acc
    = or_recursion_error (Query.walk_items svc rec endpoint items acc).
Proof.
  intros Hrec. induction items as [|item rest IH]; intros acc; simpl;
    [reflexivity|].
  unfold QueryExn.item_value, Query.item_value.
  rewrite exn_request_sent.
  destruct (Query.is_subdirectory _).
  - rewrite Hrec. destruct (rec _); simpl; [apply IH | reflexivity].
  - apply IH.
Qed.

(** Where every URL is accepted, the walk that lets exceptions through
    is the walk over the service, a result the bound did not allow
    being the [RecursionError]. *)
Lemma exn_walk_sent (limit : nat) :
  forall endpoint,
    QueryExn._get_nested_metadata (sent svc) limit endpoint
    = or_recursion_error (Query._get_nested_metadata svc limit endpoint).
Proof.
  induction limit as [|limit IH]; intros endpoint; simpl; [reflexivity|].
  rewrite exn_request_sent.
  destruct (Query._make_request svc endpoint) as [content|]; [|reflexivity].
  destruct (Query.is_listing content); [|reflexivity].
  rewrite (exn_items_sent _ _ endpoint IH).
  now destruct (Query.walk_items _ _ _ _ _).
Qed.

(** And [main] prints and exits as [QueryCli.main] does whenever that
    gives a result. *)
Lemma exn_main_sent (json_dumps : bool -> pyval -> string)
    (a : QueryCli.args) (fuel : nat) (r : list string * nat) :
  QueryCli.main svc json_dumps a fuel = Some r ->
  QueryExn.main (sent svc) json_dumps a fuel = r.
Proof.
  unfold QueryCli.main, QueryExn.main, QueryCli.list_mode, QueryCli.all_mode,
    QueryCli.key_mode, QueryExn.list_available_keys, Query.list_available_keys,
    QueryExn.get_metadata_key, Query.get_metadata_key,
    QueryExn.get_all_metadata, Query.get_all_metadata.
  rewrite exn_walk_sent.
  destruct (QueryCli.list_flag a).
  - destruct (Query._get_nested_metadata svc fuel "") as [[| s | d]|] eqn:Hw;
      simpl; try discriminate.
    + destruct (query_walk_not_dict svc fuel "" VNone Hw eq_refl)
        as (c & _ & _ & Hc).
      discriminate.
    + intros H; inversion H; reflexivity.
    + destruct (Query.collect_keys d ""); intros H; inversion H; reflexivity.
  - assert (Hall : match Query._get_nested_metadata svc fuel "" with
                   | Some metadata =>
                       if py_truthy metadata
                       then Some ([json_dumps (QueryCli.pretty a) metadata], 0)
                       else Some (["No metadata found or unable to connect to metadata service"], 1)
                   | None => None
                   end = Some r ->
                   (let metadata :=
                      match or_recursion_error
                              (Query._get_nested_metadata svc fuel "") with
                      | Returned metadata => metadata
                      | Raised _ => VDict []
                      end in
                    if py_truthy metadata
                    then ([json_dumps (QueryCli.pretty a) metadata], 0)
                    else (["No metadata found or unable to connect to metadata service"], 1))
                   = r).
    { destruct (Query._get_nested_metadata svc fuel "") as [v|]; simpl;
        [|discriminate].
      destruct (py_truthy v); intros H; inversion H; reflexivity. }
    destruct (QueryCli.key a) as [k|]; [|exact Hall].
    destruct (PyStr.truthy k); [|exact Hall].
    rewrite exn_request_sent.
    intros H. inversion H.
    destruct (Query._make_request svc (Query.key_path_of k)); reflexivity.
Qed.

End SentService.

(** ** The directory test *)



(** ** The leaves of the tree of [code.py] and the lookup of one key *)

Lemma item_path_of_app (path line : string) :
  Code.item_path_of path line = path ++ line.
Proof. destruct path; reflexivity. Qed.



Section CodeLeaves.
Variable svc : service.




End CodeLeaves.



(** ** Where the two scripts build the same tree *)

Section Agreement.
Import PyStr.

Variable svc : service.

Lemma loops_agree (recQ recC : string -> option pyval) (p : string)
    (lines : list string) :
  (forall line, In line lines ->
     truthy line = true
     /\ rstrip slash line = Code.key_of line
     /\ Query.item_value svc recQ p (rstrip slash line)
        = Code.line_value svc recC p line) ->
  forall acc,
    Query.walk_items svc recQ p (map (rstrip slash) lines) acc
    = Code.walk_lines svc recC p lines acc.
Proof.
  induction lines as [|line rest IH]; intros H acc; simpl; [reflexivity|].
  destruct (H line (or_introl eq_refl)) as [Ht [Hk Hv]].
  rewrite Ht, Hv, Hk.
  destruct (Code.line_value svc recC p line); [|reflexivity].
  apply IH. intros l Hl. apply H. now right.
Qed.

Variable dir : string -> Prop.
Hypothesis namespace_tidy : tidy svc dir.

Lemma walks_agree (fuel : nat) :
  forall p content,
    dir p -> svc p = Body content -> Query.is_listing content = true ->
    Query._get_nested_metadata svc fuel p
    = Code._get_metadata_recursive svc fuel p.
Proof.
  induction fuel as [|fuel IH]; intros p content Hdir Hsvc Hlist; simpl;
    [reflexivity|].
  unfold Query._make_request at 1, Code._make_request at 1.
  rewrite Hsvc, Hlist. f_equal.
  rewrite walk_lines_filter. unfold Query._parse_directory.
  apply loops_agree. intros line Hline.
  pose proof (namespace_tidy p content line Hdir Hsvc Hline) as Ht.
  apply filter_In in Hline as [_ Htruthy].
  split; [exact Htruthy|].
  unfold Code.key_of, Query.item_value, Code.line_value.
  rewrite item_endpoint_of_app, item_path_of_app.
  destruct (endswith slash line) eqn:Hs.
  - destruct Ht as [name [c [c' [-> [Hne [Hname [Hc [Htc [Hlc [Hc' [Hlc' Hd]]]]]]]]]]].
    assert (Hr : rstrip slash (name ++ "/") = name)
      by (rewrite rstrip_app_slash; now apply rstrip_id).
    rewrite Hr. split; [now rewrite drop_last_snoc|].
    assert (Hprobe : rstrip slash (p ++ name ++ "/") = p ++ name).
    { rewrite rstrip_app_keep; rewrite Hr; [reflexivity | exact Hne]. }
    rewrite Hprobe. unfold Query._make_request at 1. rewrite Hc.
    unfold Query.is_subdirectory. rewrite Htc, Hlc. simpl.
    exact (IH _ _ Hd Hc' Hlc').
  - destruct Ht as [c [Hc Hsub]].
    assert (Hline_ne : line <> "") by (destruct line; [discriminate | congruence]).
    rewrite (rstrip_id _ _ Hs). split; [reflexivity|].
    assert (Hprobe : rstrip slash (p ++ line ++ "/") = p ++ line).
    { rewrite rstrip_app_keep; rewrite rstrip_app_slash, (rstrip_id _ _ Hs);
        [reflexivity | exact Hline_ne]. }
    rewrite Hprobe. unfold Query._make_request, Code._make_request.
    rewrite Hc. rewrite Hsub. reflexivity.
Qed.

End Agreement.

(** X6: on a tidy namespace the two scripts build the same tree: where
    every listed line is answered, a line ending with ['/'] is a
    non-empty name with one ['/'] whose name and whose path are both
    answered with listings, and every other line is answered with a
    value, [_get_nested_metadata] and [_get_metadata_recursive] return
    the same result for every directory path, at every depth bound. *)
Theorem scripts_agree_on_tidy_namespace :
  forall (svc : service) (dir : string -> Prop),
    tidy svc dir ->
    forall (fuel : nat) (p content : string),
      dir p -> svc p = Body content -> Query.is_listing content = true ->
      Query._get_nested_metadata svc fuel p
      = Code._get_metadata_recursive svc fuel p.
Proof.
  intros svc dir Htidy fuel p content.
  exact (walks_agree svc dir Htidy fuel p content).
Qed.

Lemma scenario_tidy : tidy svc_scenario scenario_dir.
Proof.
  intros p content line [->| ->] Hsvc Hline;
    vm_compute in Hsvc; inversion Hsvc; subst content; clear Hsvc;
    each_member Hline; cbv [PyStr.endswith PyStr.slash Ascii.eqb Bool.eqb].
  - exists "i-0123". split; reflexivity.
  - exists "ami-0456". split; reflexivity.
  - exists "placement", ("availability-zone" ++ PyStr.nl),
      ("availability-zone" ++ PyStr.nl).
    repeat split; try reflexivity; try discriminate. now right.
  - exists "us-east-1a". split; reflexivity.
Qed.

Lemma scripts_agree_on_tidy_namespace_witness :
  Query._get_nested_metadata svc_scenario 2 ""
  = Code._get_metadata_recursive svc_scenario 2 "".
Proof.
  apply (scripts_agree_on_tidy_namespace svc_scenario scenario_dir
           scenario_tidy 2 "" root_listing).
  - now left.
  - reflexivity.
  - reflexivity.
Defined.

(** ** The command line of [aws_metadata_query.py] *)

Lemma exn_main_all_mode (net : web) (json_dumps : bool -> pyval -> string)
    (a : QueryCli.args) (limit : nat) :
  QueryCli.list_flag a = false ->
  QueryCli.key a = None \/ QueryCli.key a = Some "" ->
  QueryExn.main net json_dumps a limit
  = if py_truthy (QueryExn.get_all_metadata net limit)
    then ([json_dumps (QueryCli.pretty a) (QueryExn.get_all_metadata net limit)], 0)
    else (["No metadata found or unable to connect to metadata service"], 1).
Proof.
  intros Hlist Hkey. unfold QueryExn.main. rewrite Hlist.
  destruct Hkey as [->| ->]; reflexivity.
Qed.

(** X7: without [--list] and [--key], [main] of
    [aws_metadata_query.py] prints the tree and exits with status 0
    exactly when the walk from the root returns a non-empty dictionary
    or string.  It prints that no metadata was found and exits with
    status 1 when the walk returns an empty result, as it does when the
    request for the root fails, and when the walk raises, which the
    handler of [get_all_metadata] turns into the empty dictionary: so
    also when the root's listing names children and the URL of one of
    them is refused.  Failed requests for children do not stand in the
    way: when the listing names at least one child, no child's URL is
    refused and the walks of the subdirectories return, [main] prints
    the tree of the walk, with every listed name as a key, and exits
    with status 0. *)
Theorem cli_full_tree_status :
  forall (net : web) (json_dumps : bool -> pyval -> string)
         (a : QueryCli.args) (limit : nat),
    QueryCli.list_flag a = false ->
    QueryCli.key a = None \/ QueryCli.key a = Some "" ->
    (forall msg, QueryExn._get_nested_metadata net limit "" = Raised msg ->
       QueryExn.main net json_dumps a limit
       = (["No metadata found or unable to connect to metadata service"], 1))
    /\ (forall v, QueryExn._get_nested_metadata net limit "" = Returned v ->
        QueryExn.main net json_dumps a limit
        = if py_truthy v then ([json_dumps (QueryCli.pretty a) v], 0)
          else (["No metadata found or unable to connect to metadata service"], 1))
    /\ (forall e, net "" = Sent (RequestException e) ->
        QueryExn.main net json_dumps a (S limit)
        = (["No metadata found or unable to connect to metadata service"], 1))
    /\ (forall content item msg,
          net "" = Sent (Body content) -> Query.is_listing content = true ->
          In item (Query._parse_directory content) ->
          net (PyStr.rstrip PyStr.slash (Query.item_endpoint_of "" item))
          = Refused msg ->
          QueryExn.main net json_dumps a (S limit)
          = (["No metadata found or unable to connect to metadata service"], 1))
    /\ (forall content,
          net "" = Sent (Body content) -> Query.is_listing content = true ->
          Query._parse_directory content <> [] ->
          (forall Y, In Y (Query._parse_directory content) ->
             query_child_returns net limit "" Y) ->
          exists d : dict,
            QueryExn._get_nested_metadata net (S limit) "" = Returned (VDict d)
            /\ (forall item, In item (Query._parse_directory content) ->
                  In item (keys d))
            /\ QueryExn.main net json_dumps a (S limit)
               = ([json_dumps (QueryCli.pretty a) (VDict d)], 0)).
Proof.
  intros net json_dumps a limit Hlist Hkey.
  rewrite !(exn_main_all_mode net json_dumps a _ Hlist Hkey).
  unfold QueryExn.get_all_metadata.
  split; [|split; [|split; [|split]]].
  - intros msg Hw. now rewrite Hw.
  - intros v Hw. now rewrite Hw.
  - intros e He. simpl. unfold QueryExn._make_request. now rewrite He.
  - intros content item msg Hnet Hl Hitem Hrefused.
    destruct (exn_walk_items_raises net
                (QueryExn._get_nested_metadata net limit) ""
                (Query._parse_directory content)) with (acc := @nil (string * pyval))
      as [m Hm].
    { exists item, msg. split; [exact Hitem|].
      unfold QueryExn.item_value, QueryExn._make_request. now rewrite Hrefused. }
    simpl. unfold QueryExn._make_request at 1. now rewrite Hnet, Hl, Hm.
  - intros content Hnet Hl Hne Hret.
    destruct (exn_walk_items_returns net
                (QueryExn._get_nested_metadata net limit) ""
                (Query._parse_directory content)
                (fun Y HY => query_child_returns_value _ _ _ _ (Hret Y HY)) [])
      as [d Hd].
    assert (Hkeys : forall item, In item (Query._parse_directory content) ->
                      In item (keys d)).
    { intros item Hi. apply (exn_walk_items_keys _ _ _ _ _ _ Hd). now right. }
    assert (Hwalk : QueryExn._get_nested_metadata net (S limit) ""
                    = Returned (VDict d)).
    { simpl. unfold QueryExn._make_request at 1. now rewrite Hnet, Hl, Hd. }
    exists d. split; [exact Hwalk|]. split; [exact Hkeys|].
    rewrite Hwalk.
    destruct d as [|kv d]; [|reflexivity].
    destruct (Query._parse_directory content) as [|item rest]; [congruence|].
    destruct (Hkeys item (or_introl eq_refl)).
Qed.

Lemma cli_full_tree_status_witness :
  QueryExn.main net_refusing (fun _ _ => "{}")
    {| QueryCli.list_flag := false; QueryCli.key := None;
       QueryCli.raw := false; QueryCli.pretty := false |} 2
  = (["No metadata found or unable to connect to metadata service"], 1)
  /\ QueryExn.main (sent svc_loop) (fun _ _ => "{}")
       {| QueryCli.list_flag := false; QueryCli.key := None;
          QueryCli.raw := false; QueryCli.pretty := false |} 3
     = (["No metadata found or unable to connect to metadata service"], 1)
  /\ exists d : dict,
       QueryExn._get_nested_metadata (sent svc_timeout) 2 "" = Returned (VDict d)
       /\ (forall item, In item (Query._parse_directory root_listing) ->
             In item (keys d))
       /\ QueryExn.main (sent svc_timeout) (fun _ _ => "{}")
            {| QueryCli.list_flag := false; QueryCli.key := None;
               QueryCli.raw := false; QueryCli.pretty := false |} 2
          = (["{}"], 0).
Proof.
  split; [|split].
  - apply (proj1 (proj2 (proj2 (proj2
      (cli_full_tree_status net_refusing (fun _ _ => "{}")
         {| QueryCli.list_flag := false; QueryCli.key := None;
            QueryCli.raw := false; QueryCli.pretty := false |} 1
         eq_refl (or_introl eq_refl)))))
      (root_listing ++ "//[" ++ PyStr.nl) "//[" "Invalid IPv6 URL");
      try reflexivity.
    vm_compute. right. right. right. left. reflexivity.
  - apply (proj1
      (cli_full_tree_status (sent svc_loop) (fun _ _ => "{}")
         {| QueryCli.list_flag := false; QueryCli.key := None;
            QueryCli.raw := false; QueryCli.pretty := false |} 3
         eq_refl (or_introl eq_refl))
      QueryExn.recursion_error).
    rewrite exn_walk_sent, query_walk_loops. reflexivity.
  - apply (proj2 (proj2 (proj2 (proj2
      (cli_full_tree_status (sent svc_timeout) (fun _ _ => "{}")
         {| QueryCli.list_flag := false; QueryCli.key := None;
            QueryCli.raw := false; QueryCli.pretty := false |} 1
         eq_refl (or_introl eq_refl)))))
      root_listing); try reflexivity.
    + vm_compute. discriminate.
    + intros Y HY. each_member HY; vm_compute;
        first [exact I | intros _; eexists; reflexivity].
Defined.

(** X8: with [--list], [main] of [aws_metadata_query.py] prints the
    enumerated keys in sorted order, each once per occurrence, after a
    header line, and exits with status 0 when there is at least one; it
    exits with status 1 when the request for the root fails, and ends in
    the handler of unexpected errors, status 1, when the root answers
    with a single value. *)
Theorem cli_list_is_sorted :
  forall (svc : service) (json_dumps : bool -> pyval -> string)
         (a : QueryCli.args) (fuel : nat),
    QueryCli.list_flag a = true ->
    (forall ks, Query.list_available_keys svc fuel = Some (Query.Keys ks) ->
       ks <> [] ->
       exists out,
         QueryCli.main svc json_dumps a fuel
         = Some ("Available metadata keys:" :: map (fun k => "  " ++ k) out, 0)
         /\ Permutation.Permutation ks out
         /\ Sorted.Sorted (fun x y => String.leb x y = true) out)
    /\ (forall e, svc "" = RequestException e ->
        QueryCli.main svc json_dumps a (S fuel)
        = Some (["No metadata keys found or unable to connect to metadata service"], 1))
    /\ (forall content, svc "" = Body content ->
        Query.is_listing content = false ->
        QueryCli.main svc json_dumps a (S fuel)
        = Some (["Unexpected error: 'str' object has no attribute 'items'"], 1)).
Proof.
  intros svc json_dumps a fuel Hlist.
  unfold QueryCli.main. rewrite Hlist. unfold QueryCli.list_mode.
  split; [|split].
  - intros ks Hks Hne. rewrite Hks. exists (StringSort.sort ks).
    split; [destruct ks; [congruence | reflexivity]|].
    split; [apply StringSort.Permuted_sort | apply StringSort.Sorted_sort].
  - intros e He. unfold Query.list_available_keys, Query.get_all_metadata.
    simpl. unfold Query._make_request. now rewrite He.
  - intros content Hsvc Hl.
    unfold Query.list_available_keys, Query.get_all_metadata.
    simpl. unfold Query._make_request. now rewrite Hsvc, Hl.
Qed.

Lemma cli_list_is_sorted_witness :
  exists out,
    QueryCli.main svc_scenario (fun _ _ => "")
      {| QueryCli.list_flag := true; QueryCli.key := None;
         QueryCli.raw := false; QueryCli.pretty := false |} 2
    = Some ("Available metadata keys:" :: map (fun k => "  " ++ k) out, 0)
    /\ Permutation.Permutation
         ["instance-id"; "ami-id"; "placement/availability-zone"] out
    /\ Sorted.Sorted (fun x y => String.leb x y = true) out.
Proof.
  apply (proj1 (cli_list_is_sorted svc_scenario (fun _ _ => "")
                  {| QueryCli.list_flag := true; QueryCli.key := None;
                     QueryCli.raw := false; QueryCli.pretty := false |} 2
                  eq_refl)).
  - reflexivity.
  - discriminate.
Defined.

(** ** A failed lookup at the two command lines *)

(** X9: when the request for a key fails, [main] of
    [aws_metadata_query.py] prints that the key was not found and exits
    with status 1, while [main] of [code.py] prints the dictionary with
    the single entry [error] and exits with status 0.  The key holds no
    ['.'] and no ['_'], so that both ask for the same path. *)
Theorem cli_failed_lookup_status :
  forall (svc : service) (json_dumps : bool -> pyval -> string)
         (k e : string) (r p p' : bool) (fuel : nat),
    PyStr.truthy k = true ->
    PyStr.contains "." k = false -> PyStr.contains "_" k = false ->
    svc k = RequestException e ->
    QueryCli.main svc json_dumps
      {| QueryCli.list_flag := false; QueryCli.key := Some k;
         QueryCli.raw := r; QueryCli.pretty := p |} fuel
    = Some (["Key '" ++ k ++ "' not found or inaccessible"], 1)
    /\ CodeCli.main svc
         {| CodeCli.list_keys := false; CodeCli.key := Some k;
            CodeCli.pretty := p' |} fuel
       = Some (CodeCli.KeyResult
                 [("error",
                   VStr ("Could not retrieve key '" ++ k
                         ++ "': Failed to retrieve metadata from " ++ k
                         ++ ": " ++ e))], 0).
Proof.
  intros svc json_dumps k e r p p' fuel Ht Hdot Hus He.
  unfold QueryCli.main, CodeCli.main. simpl. rewrite Ht. split.
  - unfold QueryCli.key_mode, Query.get_metadata_key, Query.key_path_of.
    rewrite (replace_absent "." "/" k Hdot), (replace_absent "_" "-" k Hus).
    unfold Query._make_request. now rewrite He.
  - unfold Code.get_specific_key, Code._make_request. now rewrite He.
Qed.

Lemma cli_failed_lookup_status_witness :
  QueryCli.main svc_timeout (fun _ _ => "")
    {| QueryCli.list_flag := false; QueryCli.key := Some "ami-id";
       QueryCli.raw := true; QueryCli.pretty := false |} 0
  = Some (["Key 'ami-id' not found or inaccessible"], 1)
  /\ CodeCli.main svc_timeout
       {| CodeCli.list_keys := false; CodeCli.key := Some "ami-id";
          CodeCli.pretty := false |} 0
     = Some (CodeCli.KeyResult
               [("error",
                 VStr "Could not retrieve key 'ami-id': Failed to retrieve metadata from ami-id: Read timed out.")], 0).
Proof.
  apply (cli_failed_lookup_status svc_timeout (fun _ _ => "") "ami-id"
           "Read timed out." true false false 0); reflexivity.
Defined.

(** ** The command line of [code.py] *)

(** X10: [main] of [code.py] exits with status 1 only with
    [--list-keys] when the request for the root fails, and then prints
    the message of the failure; in every other case that returns it
    exits with status 0, also when the tree or the lookup holds an
    error. *)
Theorem code_cli_exit_status :
  forall (svc : service) (a : CodeCli.args) (fuel : nat)
         (doc : CodeCli.document) (status : nat),
    CodeCli.main svc a fuel = Some (doc, status) ->
    (status = 0 \/ status = 1)
    /\ (status = 1 <->
        CodeCli.list_keys a = true /\ exists e, svc "" = RequestException e)
    /\ (status = 1 ->
        exists e, svc "" = RequestException e
          /\ doc = CodeCli.ErrorResult
                     ("Failed to retrieve metadata from : " ++ e)).
Proof.
  intros svc a fuel doc status. unfold CodeCli.main, Code._make_request.
  destruct (CodeCli.list_keys a).
  - destruct (svc "") as [content|e] eqn:Hsvc; intros H; inversion H; subst.
    + split; [now left|]. split; [|discriminate].
      split; [discriminate|]. intros [_ [e He]]. discriminate.
    + split; [now right|]. split.
      * split; [|reflexivity]. intros _. split; [reflexivity | now exists e].
      * intros _. now exists e.
  - assert (Hok : forall o : option pyval,
              option_map (fun v => (CodeCli.Metadata v, 0)) o = Some (doc, status) ->
              status = 0)
      by (intros [v|] H; inversion H; reflexivity).
    intros H.
    assert (Hs : status = 0).
    { destruct (CodeCli.key a) as [k|]; [destruct (PyStr.truthy k)|].
      - inversion H. reflexivity.
      - exact (Hok _ H).
      - exact (Hok _ H). }
    subst status. split; [now left|]. split; [|discriminate].
    split; [discriminate|]. intros [Hl _]. discriminate.
Qed.

Lemma code_cli_exit_status_witness :
  (1 = 0 \/ 1 = 1)
  /\ (1 = 1 <->
      CodeCli.list_keys {| CodeCli.list_keys := true; CodeCli.key := None;
                           CodeCli.pretty := false |} = true
      /\ exists e, svc_down "" = RequestException e)
  /\ (1 = 1 ->
      exists e, svc_down "" = RequestException e
        /\ CodeCli.ErrorResult "Failed to retrieve metadata from : Read timed out."
           = CodeCli.ErrorResult ("Failed to retrieve metadata from : " ++ e)).
Proof.
  exact (code_cli_exit_status svc_down
           {| CodeCli.list_keys := true; CodeCli.key := None;
              CodeCli.pretty := false |} 0
           (CodeCli.ErrorResult
              "Failed to retrieve metadata from : Read timed out.") 1 eq_refl).
Defined.

(** X11: with [--list-keys], [main] of [code.py] reports the lines of
    the root's answer with their trailing ['/'] removed without dropping
    the empty ones: the list is never empty (an empty answer gives one
    empty name), it holds every name the walker of
    [aws_metadata_query.py] parses from the same answer, and none of its
    names holds a newline or ends with ['/']. *)
Theorem code_cli_available_keys :
  forall (svc : service) (a : CodeCli.args) (fuel : nat) (content : string),
    CodeCli.list_keys a = true ->
    svc "" = Body content ->
    exists ks,
      CodeCli.main svc a fuel = Some (CodeCli.AvailableKeys ks, 0)
      /\ ks <> []
      /\ (forall item, In item (Query._parse_directory content) -> In item ks)
      /\ Forall query_key_ok ks.
Proof.
  intros svc a fuel content Hl Hsvc.
  unfold CodeCli.main, Code._make_request. rewrite Hl, Hsvc.
  eexists. split; [reflexivity|]. split; [|split].
  - pose proof (split_nonempty PyStr.LF (PyStr.strip content)) as Hne.
    destruct (PyStr.split PyStr.LF (PyStr.strip content)); [congruence | discriminate].
  - unfold Query._parse_directory. intros item Hi.
    apply in_map_iff in Hi as [line [<- Hline]].
    apply filter_In in Hline as [Hline _]. now apply in_map.
  - apply Forall_forall. intros k Hk.
    apply in_map_iff in Hk as [line [<- Hline]]. split.
    + apply rstrip_with_contains. exact (split_no_separator _ _ _ Hline).
    + apply rstrip_not_endswith.
Qed.

Lemma code_cli_available_keys_witness :
  exists ks,
    CodeCli.main svc_empty
      {| CodeCli.list_keys := true; CodeCli.key := None;
         CodeCli.pretty := false |} 0
    = Some (CodeCli.AvailableKeys ks, 0)
    /\ ks <> []
    /\ (forall item, In item (Query._parse_directory "") -> In item ks)
    /\ Forall query_key_ok ks.
Proof.
  apply (code_cli_available_keys svc_empty
           {| CodeCli.list_keys := true; CodeCli.key := None;
              CodeCli.pretty := false |} 0 ""); reflexivity.
Defined.

(** ** The token *)

(** X12: the token is optional for the clients: when the metadata
    endpoint answers a path alike with and without a token, and whatever
    the state of the world, [get_all_metadata] of a freshly built client
    of [aws_metadata_query.py], and [get_all_metadata] and
    [get_specific_key] of a client of [code.py] holding any token or
    none, return what the walk and the lookup over the plain service
    return, whether the handshake succeeds or fails. *)
Theorem token_is_optional :
  forall (W : Type) (put_token : W -> response * W)
         (get_metadata : option string -> string -> W -> response * W)
         (svc : service),
    (forall h p w, fst (get_metadata h p w) = svc p) ->
    (forall fuel w,
        option_map fst (query_client_all W put_token get_metadata fuel w)
        = Query.get_all_metadata svc fuel)
    /\ (forall fuel token w,
        option_map (fun r => fst (fst r))
          (code_client_step W put_token get_metadata (GetAllMetadata fuel) token w)
        = Code.get_all_metadata svc fuel)
    /\ (forall key_path token w,
        option_map (fun r => fst (fst r))
          (code_client_step W put_token get_metadata (GetSpecificKey key_path)
             token w)
        = Some (VDict (Code.get_specific_key svc key_path))).
Proof.
  intros W put_token get_metadata svc Hsame. split; [|split].
  - intros fuel w. unfold query_client_all.
    destruct (_get_imds_token W put_token w) as [token w'].
    apply (query_walk_io W (get_metadata (token_header token)) svc
             (Hsame (token_header token))).
  - intros fuel token w. unfold code_client_step, Code.get_all_metadata.
    destruct (ensure_token W put_token token w) as [token' w'].
    rewrite <- (code_walk_io W (get_metadata (token_header token')) svc
                  (Hsame (token_header token')) fuel "" w').
    destruct (CodeIO._get_metadata_recursive _ _ _ _ _) as [[v w'']|];
      reflexivity.
  - intros key_path token w. unfold code_client_step.
    destruct (ensure_token W put_token token w) as [token' w'].
    pose proof (code_request_io W (get_metadata (token_header token')) svc
                  (Hsame (token_header token')) key_path w') as Hreq.
    unfold Code.get_specific_key. rewrite <- Hreq.
    destruct (CodeIO._make_request _ _ _ _) as [[value|e] w'']; reflexivity.
Qed.

Lemma token_is_optional_witness :
  option_map fst (query_client_all nat put_down (get_any_token svc_scenario) 2 0)
  = Query.get_all_metadata svc_scenario 2
  /\ option_map (fun r => fst (fst r))
       (code_client_step nat put_down (get_any_token svc_scenario)
          (GetAllMetadata 2) None 0)
     = Code.get_all_metadata svc_scenario 2.
Proof.
  assert (Hsame : forall (h : option string) p (w : nat),
            fst (get_any_token svc_scenario h p w) = svc_scenario p)
    by reflexivity.
  destruct (token_is_optional nat put_down (get_any_token svc_scenario)
              svc_scenario Hsame) as [Hq [Hc _]].
  split; [apply Hq | apply Hc].
Defined.

(** X13: a client of [code.py] that holds a non-empty token keeps it
    through every sequence of operations and never asks the token
    endpoint again: the results, the token and the world it leaves are
    the same whatever the token endpoint would answer. *)
Theorem token_is_kept :
  forall (W : Type) (put_token put_token' : W -> response * W)
         (get_metadata : option string -> string -> W -> response * W)
         (ops : list operation) (t : string) (w : W),
    PyStr.truthy t = true ->
    code_client_run W put_token get_metadata ops (Some t) w
    = code_client_run W put_token' get_metadata ops (Some t) w
    /\ forall vs token' w',
         code_client_run W put_token get_metadata ops (Some t) w
         = Some (vs, token', w') ->
         token' = Some t.
Proof.
  intros W put_token put_token' get_metadata ops t w Ht. revert w.
  assert (Hstep : forall op w,
            code_client_step W put_token get_metadata op (Some t) w
            = code_client_step W put_token' get_metadata op (Some t) w
            /\ forall v token' w',
                 code_client_step W put_token get_metadata op (Some t) w
                 = Some (v, token', w') -> token' = Some t).
  { intros op w. unfold code_client_step, ensure_token. simpl. rewrite Ht.
    split; [reflexivity|]. intros v token' w'.
    destruct op as [fuel|key_path].
    - destruct (CodeIO._get_metadata_recursive _ _ _ _ _) as [[v0 w0]|];
        intros H; inversion H; reflexivity.
    - destruct (CodeIO._make_request _ _ _ _) as [[value|e] w0];
        intros H; inversion H; reflexivity. }
  induction ops as [|op rest IH]; intros w; simpl.
  - split; [reflexivity|]. intros vs token' w' H. inversion H. reflexivity.
  - destruct (Hstep op w) as [Heq Htok]. rewrite <- Heq.
    destruct (code_client_step W put_token get_metadata op (Some t) w)
      as [[[v token1] w1]|]; [|split; [reflexivity | discriminate]].
    rewrite (Htok v token1 w1 eq_refl).
    destruct (IH w1) as [IHeq IHtok]. rewrite <- IHeq.
    destruct (code_client_run W put_token get_metadata rest (Some t) w1)
      as [[[vs token2] w2]|]; [|split; [reflexivity | discriminate]].
    split; [reflexivity|].
    intros vs' token' w' H. inversion H; subst.
    exact (IHtok vs token' w' eq_refl).
Qed.

Lemma token_is_kept_witness :
  code_client_run nat put_up (get_any_token svc_scenario)
    [GetSpecificKey "ami-id"; GetAllMetadata 2] (Some "AQAEAJ") 0
  = code_client_run nat put_down (get_any_token svc_scenario)
      [GetSpecificKey "ami-id"; GetAllMetadata 2] (Some "AQAEAJ") 0.
Proof.
  exact (proj1 (token_is_kept nat put_up put_down (get_any_token svc_scenario)
                  [GetSpecificKey "ami-id"; GetAllMetadata 2] "AQAEAJ" 0
                  eq_refl)).
Defined.
